(** * The shopping-list store of smolagent-cookbook

    A shallow embedding of [shopping-list/src]: the exception classes
    ([exceptions.py]), the validators ([validators.py]), the in-memory
    store [ShoppingListClient] ([client.py]) and the three tool adapters
    ([tools.py]), followed by the properties the specification states
    about them.

    Python objects are modelled by value.  A method of the client is a
    computation in a state-and-exception monad over the client record:
    a raised exception keeps every mutation made before the [raise]. *)

From Stdlib Require Import ZArith Ascii Floats SpecFloat.
From stdpp Require Import base option list gmap strings pretty.

Open Scope Z_scope.

(** ** Python values *)

(** The arguments the tool schemas declare are JSON scalars: integers,
    strings and null; Python callers may also pass booleans, and [bool]
    is a subclass of [int].  Any other object (a float, a list) fails
    the [isinstance] checks and the comparisons with string literals
    below as [None] does. *)
Inductive pyval :=
| PNone
| PBool (b : bool)
| PInt (z : Z)
| PStr (s : string).

#[global] Instance pyval_eq_dec : EqDecision pyval.
Proof. solve_decision. Defined.

(** [isinstance(v, int)]: true of integers and of booleans. *)
Definition isinstance_int (v : pyval) : bool :=
  match v with
  | PInt _ | PBool _ => true
  | _ => false
  end.

(** [isinstance(v, str)]. *)
Definition isinstance_str (v : pyval) : bool :=
  match v with
  | PStr _ => true
  | _ => false
  end.

(** The integer an [int] instance stands for in comparisons, sums and as a
    dictionary key ([True == 1], [False == 0], equal hashes).  It is only
    consulted after an [isinstance_int] check; 0 elsewhere. *)
Definition int_value (v : pyval) : Z :=
  match v with
  | PInt z => z
  | PBool b => Z.b2z b
  | _ => 0
  end.

(** [str(v)], as an f-string renders an argument. *)
Definition py_str (v : pyval) : string :=
  match v with
  | PNone => "None"
  | PBool true => "True"
  | PBool false => "False"
  | PInt z => pretty z
  | PStr s => s
  end.

(** Truthiness, [bool(v)]. *)
Definition truthy (v : pyval) : bool :=
  match v with
  | PNone => false
  | PBool b => b
  | PInt z => negb (z =? 0)
  | PStr s => negb (String.eqb s "")
  end.

(** [v == s] for a string literal [s]. *)
Definition eq_str (v : pyval) (s : string) : bool :=
  match v with
  | PStr t => String.eqb t s
  | _ => false
  end.

(** [n == v] for a stored integer [n]. *)
Definition eq_int (n : Z) (v : pyval) : bool :=
  isinstance_int v && (n =? int_value v).

(** ** exceptions.py *)

Inductive exc_class :=
| ShoppingListError
| ValidationError
| ItemNotFoundError
| InvalidQuantityError
| InvalidSkuError
| KeyError
| TypeError
| ValueError.

#[global] Instance exc_class_eq_dec : EqDecision exc_class.
Proof. solve_decision. Defined.

(** The direct base class inside the module; [None] stands for a class
    deriving from [Exception] directly or from a built-in. *)
Definition base_class (c : exc_class) : option exc_class :=
  match c with
  | ValidationError | ItemNotFoundError => Some ShoppingListError
  | InvalidQuantityError | InvalidSkuError => Some ValidationError
  | _ => None
  end.

(** [issubclass(c, target)]: the hierarchy is two levels deep. *)
Definition issubclass (c target : exc_class) : bool :=
  bool_decide (c = target)
  || match base_class c with
     | Some b =>
         bool_decide (b = target)
         || match base_class b with
            | Some b' => bool_decide (b' = target)
            | None => false
            end
     | None => false
     end.

(** [ShoppingListError.__init__(message, error_code=None)]. *)
Record exception := Exc {
  exc_cls : exc_class;
  message : string;
  error_code : option string
}.

#[global] Instance exception_eq_dec : EqDecision exception.
Proof. solve_decision. Defined.

(** ** Results and the client monad *)

Inductive result (A : Type) :=
| Ok (a : A)
| Raise (e : exception).
Arguments Ok {A} a.
Arguments Raise {A} e.

#[global] Instance result_ret : MRet result := λ A a, Ok a.
#[global] Instance result_bind : MBind result := λ A B f r,
  match r with
  | Ok a => f a
  | Raise e => Raise e
  end.

(** [raise cls(msg)]: every [raise] of the sources passes a message only,
    so [error_code] keeps its default. *)
Definition raiseR {A} (cls : exc_class) (msg : string) : result A :=
  Raise (Exc cls msg None).

(** ** The data model of client.py *)

(** One module per dictionary shape, so that the keys keep their names.
    An integer field holds the integer a stored [int] instance stands
    for: a [bool] that passed a check is kept as the integer it equals,
    from which Python's [==] does not tell it apart. *)
Module LineItem.
Record t := mk { sku : Z; quantity : Z }.
End LineItem.

Module ShoppingList.
Record t := mk { list_id : Z; items : list LineItem.t }.
End ShoppingList.

Module CatalogItem.
Record t := mk { sku : Z; item_name : string; unit_price : float }.
End CatalogItem.

Abbreviation line_item := LineItem.t.
Abbreviation shopping_list := ShoppingList.t.
Abbreviation catalog_item := CatalogItem.t.

#[global] Instance line_item_eq_dec : EqDecision line_item.
Proof. solve_decision. Defined.

#[global] Instance shopping_list_eq_dec : EqDecision shopping_list.
Proof. solve_decision. Defined.

(** [ShoppingListClient]: [shopping_lists] is keyed by customer id and
    never iterated; the catalog ([self.items]) is kept in insertion order,
    which [items.values()] exposes. *)
Record ShoppingListClient := Client {
  shopping_lists : gmap Z shopping_list;
  catalog : list (Z * catalog_item)
}.

Definition M (A : Type) : Type :=
  ShoppingListClient → result A * ShoppingListClient.

#[global] Instance M_ret : MRet M := λ A a self, (Ok a, self).
#[global] Instance M_bind : MBind M := λ A B f m self,
  match m self with
  | (Ok a, self') => f a self'
  | (Raise e, self') => (Raise e, self')
  end.

Definition raise {A} (cls : exc_class) (msg : string) : M A :=
  λ self, (raiseR cls msg, self).

Definition liftR {A} (r : result A) : M A := λ self, (r, self).

Definition get_self : M ShoppingListClient := λ self, (Ok self, self).

(** [__init__]: no list yet, and the seed catalog.  The two prices
    written in hexadecimal are the doubles Python reads for the literals
    [2.80] and [4.20], which are not binary fractions (see
    [seed_literals]). *)
Definition seed_catalog : list (Z * catalog_item) :=
  [ (101, CatalogItem.mk 101 "Apple" 3.5);
    (102, CatalogItem.mk 102 "Bread" 5);
    (103, CatalogItem.mk 103 "Milk" 0x1.6666666666666p+1);
    (104, CatalogItem.mk 104 "Eggs" 0x1.0cccccccccccdp+2);
    (105, CatalogItem.mk 105 "Chicken Breast" 8.5);
    (106, CatalogItem.mk 106 "Pasta" 3);
    (107, CatalogItem.mk 107 "Tomatoes" 2.5) ].
Arguments seed_catalog : simpl never.

Definition init : ShoppingListClient :=
  {| shopping_lists := ∅; catalog := seed_catalog |}.

(** ** Floats as text: [f"{value:.2f}"] and [float(text)] *)

(** The integer nearest to [n / d] for [d > 0], ties to the even one: the
    rounding of both conversions. *)
Definition round_half_even (n d : Z) : Z :=
  let q := n / d in
  match 2 * (n mod d) ?= d with
  | Lt => q
  | Gt => q + 1
  | Eq => if Z.even q then q else q + 1
  end.

(** The magnitude [m * 2^e] counted in hundredths, rounded on its exact
    value. *)
Definition hundredths (m : positive) (e : Z) : Z :=
  if 0 <=? e then Z.pos m * 100 * 2 ^ e
  else round_half_even (Z.pos m * 100) (2 ^ (- e)).

Definition two_digits (n : Z) : string :=
  (if n <? 10 then "0" else "") +:+ pretty n.

Definition fixed2 (neg : bool) (h : Z) : string :=
  (if neg then "-" else "") +:+ pretty (h / 100) +:+ "." +:+ two_digits (h mod 100).

(** [ShoppingListClient.format_currency]: [f"{value:.2f}"]. *)
Definition format_currency (value : float) : string :=
  match Prim2SF value with
  | S754_nan => "nan"
  | S754_infinity s => if s then "-inf" else "inf"
  | S754_zero s => fixed2 s 0
  | S754_finite s m e => fixed2 s (hundredths m e)
  end.

Definition digit_of (a : ascii) : option Z :=
  let n := Z.of_N (N_of_ascii a) in
  if (48 <=? n) && (n <=? 57) then Some (n - 48) else None.

(** Reads a run of decimal digits after the accumulator [acc]: its value,
    the number of digits read and the rest of the text. *)
Fixpoint read_digits (s : string) (acc : Z) (count : Z) : Z * Z * string :=
  match s with
  | String a rest =>
      match digit_of a with
      | Some d => read_digits rest (10 * acc + d) (count + 1)
      | None => (acc, count, s)
      end
  | EmptyString => (acc, count, s)
  end.

(** The double nearest to [n / 10^k], with the sign [neg]: [SFdiv] is
    the standard library's specification of binary64 division, here on
    the two integers taken exactly (mantissa and exponent 0), so the
    quotient is rounded once, to nearest with ties to even, as [float]
    rounds a decimal text. *)
Definition nearest_double (neg : bool) (n k : Z) : float :=
  match n with
  | Z.pos p =>
      SF2Prim (SFdiv prec emax (S754_finite neg p 0)
                 (S754_finite false (Z.to_pos (10 ^ k)) 0))
  | _ => if neg then (-0)%float else 0%float
  end.

Definition float_error (text : string) : string :=
  "could not convert string to float: '" +:+ text +:+ "'".

(** [float(text)] on the texts [.2f] produces: an optional sign, then
    [nan], [inf], or digits with an optional fraction.  The other forms
    Python accepts (exponents, blanks, underscores, other spellings of
    infinity) are outside this model and rejected like a malformed text,
    with [ValueError]. *)
Definition py_float (text : string) : result float :=
  let '(neg, body) :=
    match text with
    | String "-"%char rest => (true, rest)
    | String "+"%char rest => (false, rest)
    | _ => (false, text)
    end in
  if String.eqb body "nan" then Ok nan
  else if String.eqb body "inf" then Ok (if neg then neg_infinity else infinity)
  else
    let '(ip, ni, rest) := read_digits body 0 0 in
    match rest with
    | EmptyString =>
        if ni =? 0 then raiseR ValueError (float_error text)
        else Ok (nearest_double neg ip 0)
    | String "."%char frac =>
        let '(n, nf, rest') := read_digits frac ip 0 in
        if negb (String.eqb rest' "") || ((ni =? 0) && (nf =? 0))
        then raiseR ValueError (float_error text)
        else Ok (nearest_double neg n nf)
    | _ => raiseR ValueError (float_error text)
    end.

(** ** validators.py *)

Definition validate_sku (sku : pyval) : result unit :=
  if negb (isinstance_int sku) || (int_value sku <=? 0)
  then raiseR InvalidSkuError "SKU must be a positive integer"
  else Ok tt.

Definition validate_quantity (quantity : pyval) : result unit :=
  if negb (isinstance_int quantity)
  then raiseR InvalidQuantityError "Quantity must be an integer"
  else if int_value quantity <? 0
  then raiseR InvalidQuantityError "Quantity cannot be negative"
  else Ok tt.

(** [operation not in {'add', 'remove', 'set'}].  The message prints the
    set in an order Python does not fix; one order is written here, and
    nothing below depends on it. *)
Definition validate_operation (operation : pyval) : result unit :=
  if negb (eq_str operation "add" || eq_str operation "remove" || eq_str operation "set")
  then raiseR ValidationError "Operation must be one of: {'add', 'remove', 'set'}"
  else Ok tt.

(** ** client.py *)

(** [next((item for item in items if item['sku'] == sku), None)]. *)
Fixpoint find_item (s : Z) (l : list line_item) : option line_item :=
  match l with
  | [] => None
  | item :: rest => if LineItem.sku item =? s then Some item else find_item s rest
  end.

(** [existing_item['quantity'] = q], where [existing_item] is the first
    item of the list with SKU [s]; the item is updated in place. *)
Fixpoint set_quantity (s q : Z) (l : list line_item) : list line_item :=
  match l with
  | [] => []
  | item :: rest =>
      if LineItem.sku item =? s then LineItem.mk (LineItem.sku item) q :: rest
      else item :: set_quantity s q rest
  end.

(** [items.remove(x)]: drops the first element equal to [x].  Python
    raises [ValueError] when there is none; the callers pass an element of
    the list. *)
Fixpoint list_remove (x : line_item) (l : list line_item) : list line_item :=
  match l with
  | [] => []
  | item :: rest =>
      if bool_decide (item = x) then rest else item :: list_remove x rest
  end.

(** [sku in self.items] and [self.items.get(sku)]. *)
Fixpoint catalog_get (s : Z) (c : list (Z * catalog_item)) : option catalog_item :=
  match c with
  | [] => None
  | (k, item) :: rest => if k =? s then Some item else catalog_get s rest
  end.

(** [item['unit_price'] = p] on the catalog entry of key [s]. *)
Fixpoint catalog_set_price (s : Z) (p : float) (c : list (Z * catalog_item))
  : list (Z * catalog_item) :=
  match c with
  | [] => []
  | (k, item) :: rest =>
      if k =? s then (k, CatalogItem.mk (CatalogItem.sku item) (CatalogItem.item_name item) p) :: rest
      else (k, item) :: catalog_set_price s p rest
  end.

(** [self.shopping_lists[c] = l]. *)
Definition put_list (c : Z) (l : shopping_list) : M unit := λ self,
  (Ok tt, {| shopping_lists := <[c := l]> (shopping_lists self);
             catalog := catalog self |}).

(** [self.shopping_lists[c]]. *)
Definition lookup_list (c : Z) : M shopping_list := λ self,
  match shopping_lists self !! c with
  | Some l => (Ok l, self)
  | None => (raiseR KeyError (pretty c), self)
  end.

(** A mutation of the [items] list of customer [c]'s stored dictionary. *)
Definition set_items (c : Z) (l : list line_item) : M unit := λ self,
  (Ok tt, {| shopping_lists :=
               alter (λ sl, ShoppingList.mk (ShoppingList.list_id sl) l) c (shopping_lists self);
             catalog := catalog self |}).

Definition get_shopping_list (customer_id : pyval) : M shopping_list :=
  if negb (isinstance_int customer_id) || (int_value customer_id <? 0)
  then raise ValidationError "Invalid customer ID"
  else
    let c := int_value customer_id in
    self ← get_self;
    (if bool_decide (shopping_lists self !! c = None)
     then put_list c (ShoppingList.mk c [])
     else mret tt) ;;
    lookup_list c.

(** [item['unit_price'] = p] through the catalog of the client. *)
Definition set_price (s : Z) (p : float) : M unit := λ self,
  (Ok tt, {| shopping_lists := shopping_lists self;
             catalog := catalog_set_price s p (catalog self) |}).

Definition get_item_info (sku : pyval) : M catalog_item :=
  liftR (validate_sku sku) ;;
  self ← get_self;
  match catalog_get (int_value sku) (catalog self) return M catalog_item with
  | None => raise ItemNotFoundError ("Item with SKU " +:+ py_str sku +:+ " not found")
  | Some item =>
      price ← liftR (py_float (format_currency (CatalogItem.unit_price item)));
      set_price (int_value sku) price ;;
      mret (CatalogItem.mk (CatalogItem.sku item) (CatalogItem.item_name item) price)
  end.

Definition update_list (sku quantity customer_id operation : pyval) : M shopping_list :=
  liftR (validate_sku sku) ;;
  liftR (validate_quantity quantity) ;;
  (if negb (eq_str operation "add" || eq_str operation "remove" || eq_str operation "set")
   then raise ValidationError "Operation must be 'add', 'remove', or 'set'"
   else mret tt) ;;
  self ← get_self;
  (if negb (bool_decide (is_Some (catalog_get (int_value sku) (catalog self))))
   then raise ItemNotFoundError ("Item with SKU " +:+ py_str sku +:+ " not found")
   else mret tt) ;;
  shopping_list ← get_shopping_list customer_id;
  let c := int_value customer_id in
  let s := int_value sku in
  let q := int_value quantity in
  let items := ShoppingList.items shopping_list in
  let existing_item := find_item s items in
  (if eq_str operation "add" then
     match existing_item with
     | None => set_items c (items ++ [LineItem.mk s q])
     | Some existing =>
         let new_quantity := LineItem.quantity existing + q in
         liftR (validate_quantity (PInt new_quantity)) ;;
         set_items c (set_quantity s new_quantity items)
     end
   else if eq_str operation "remove" then
     match existing_item with
     | None =>
         raise ItemNotFoundError
           ("Cannot remove - item with SKU " +:+ py_str sku +:+ " not found in list")
     | Some existing =>
         if LineItem.quantity existing <? q then
           raise ValidationError
             ("Cannot remove " +:+ py_str quantity +:+ " - only "
              +:+ pretty (LineItem.quantity existing) +:+ " available")
         else
           let new_quantity := LineItem.quantity existing - q in
           if 0 <? new_quantity then set_items c (set_quantity s new_quantity items)
           else set_items c (list_remove existing items)
     end
   else if eq_str operation "set" then
     if 0 <? q then
       match existing_item with
       | Some _ => set_items c (set_quantity s q items)
       | None => set_items c (items ++ [LineItem.mk s q])
       end
     else
       match existing_item with
       | Some existing => set_items c (list_remove existing items)
       | None => mret tt
       end
   else mret tt) ;;
  lookup_list c.

(** ** tools.py *)

(** [try: body except ...: handler]: the handler sees the exception and
    the client as the body left it. *)
Definition try_except {A} (body : M A) (handler : exception → M A) : M A :=
  λ self,
    match body self with
    | (Ok a, self') => (Ok a, self')
    | (Raise e, self') => handler e self'
    end.

(** The dictionaries the tools return.  [error_code] is [None] when the
    dictionary has no such key and [Some PNone] when the key holds
    Python's [None]. *)
Inductive tool_output :=
| ListOutput (list_id : Z) (items : list line_item)
| ItemOutput (sku : Z) (item_name : string) (unit_price : float)
| UpdateOutput (status message : string) (list : shopping_list)
    (item : option line_item)
| ErrorOutput (error : string) (error_code : option pyval).

(** [e.error_code] as a Python value. *)
Definition code_value (e : exception) : pyval :=
  match error_code e with
  | Some code => PStr code
  | None => PNone
  end.

(** [any(item['sku'] == sku for item in items)]. *)
Definition item_exists (sku : pyval) (l : list line_item) : bool :=
  existsb (λ item, eq_int (LineItem.sku item) sku) l.

(** [next((item for item in items if item['sku'] == sku), None)] for an
    argument that was not validated. *)
Definition first_item (sku : pyval) (l : list line_item) : option line_item :=
  List.find (λ item, eq_int (LineItem.sku item) sku) l.

Section Tools.

(** Built-ins of Python taken as given: [int(text)] on a string, [None]
    for the texts it rejects with [ValueError]; [str.lower] and
    [str.strip]. *)
Variable int_of_str : string → option Z.
Variable str_lower : string → string.
Variable str_strip : string → string.

(** [int(v)]. *)
Definition py_int (v : pyval) : result Z :=
  match v with
  | PInt z => Ok z
  | PBool b => Ok (Z.b2z b)
  | PStr text =>
      match int_of_str text with
      | Some z => Ok z
      | None =>
          raiseR ValueError
            ("invalid literal for int() with base 10: '" +:+ text +:+ "'")
      end
  | PNone =>
      raiseR TypeError
        "int() argument must be a string, a bytes-like object or a real number, not 'NoneType'"
  end.

(** [ShoppingListValidator.validate_customer_id]: only [ValueError] is
    converted, any other exception of [int] passes through. *)
Definition validate_customer_id (customer_id : pyval) : result unit :=
  match
    customer_id_int ← py_int customer_id;
    if customer_id_int <? 0
    then raiseR ValidationError "Customer ID must be a positive integer"
    else Ok tt
  with
  | Ok u => Ok u
  | Raise e =>
      if issubclass (exc_cls e) ValueError
      then raiseR ValidationError "Customer ID must be a valid integer"
      else Raise e
  end.

(** [_extract] with the query of each tool, and [extract or {}]: both
    queries build a dictionary of two or three keys, which is truthy. *)
Definition extract_list (l : shopping_list) : tool_output :=
  ListOutput (ShoppingList.list_id l) (ShoppingList.items l).

Definition extract_item (i : catalog_item) : tool_output :=
  ItemOutput (CatalogItem.sku i) (CatalogItem.item_name i)
    (CatalogItem.unit_price i).

Definition GetShoppingListTool_forward (customer_id : pyval) : M tool_output :=
  try_except
    (liftR (validate_customer_id customer_id) ;;
     c ← liftR (py_int customer_id);
     shopping_list ← get_shopping_list (PInt c);
     mret (extract_list shopping_list))
    (λ e,
      if issubclass (exc_cls e) ValueError then
        raise ValidationError "Customer ID must be a valid integer"
      else if issubclass (exc_cls e) ShoppingListError then
        mret (ErrorOutput (message e) (Some (code_value e)))
      else
        mret (ErrorOutput "An unexpected error occurred" None)).

(** The first catalog entry, in insertion order, whose lowered name is
    the lowered [name]. *)
Definition find_by_name (name : string) (c : list (Z * catalog_item))
  : option catalog_item :=
  snd <$> List.find
    (λ p, String.eqb (str_lower (CatalogItem.item_name p.2)) (str_lower name)) c.

Definition GetItemDetailsTool_forward (sku item_name : pyval) : M tool_output :=
  try_except
    ((if negb (truthy sku) && negb (truthy item_name)
      then raise ValidationError "Either sku or item_name must be provided"
      else mret tt) ;;
     item_info ←
       (if truthy sku then
          liftR (validate_sku sku) ;;
          s ← liftR (py_int sku);
          get_item_info (PInt s)
        else
          (if negb (isinstance_str item_name)
              || negb (truthy (PStr (str_strip (py_str item_name))))
           then raise ValidationError "Item name must be a non-empty string"
           else mret tt) ;;
          self ← get_self;
          match find_by_name (py_str item_name) (catalog self) with
          | Some item => mret item
          | None =>
              raise ItemNotFoundError
                ("Item '" +:+ py_str item_name +:+ "' not found")
          end);
     mret (extract_item item_info))
    (λ e,
      if issubclass (exc_cls e) ShoppingListError then
        mret (ErrorOutput (message e) (Some (code_value e)))
      else
        mret (ErrorOutput "An unexpected error occurred" None)).

(** The checks [UpdateListTool.forward] makes before it calls the
    client; the logging between them has no effect on the result. *)
Definition UpdateListTool_checks (sku quantity customer_id operation : pyval)
  : M unit :=
  liftR (validate_quantity quantity) ;;
  liftR (validate_operation operation) ;;
  current_list ← get_shopping_list customer_id;
  let item_exists := item_exists sku (ShoppingList.items current_list) in
  if eq_str operation "add" then mret tt
  else if eq_str operation "remove" then
    if negb item_exists then
      raise ItemNotFoundError
        ("Item with SKU " +:+ py_str sku +:+ " not found in list")
    else if int_value quantity <=? 0 then
      raise ValidationError "Quantity must be positive for removal"
    else mret tt
  else mret tt.

Definition UpdateListTool_forward (sku quantity customer_id operation : pyval)
  : M tool_output :=
  try_except
    (UpdateListTool_checks sku quantity customer_id operation ;;
     updated_list ← update_list sku quantity customer_id operation;
     mret (UpdateOutput "success" "Shopping list updated" updated_list
             (first_item sku (ShoppingList.items updated_list))))
    (λ e,
      if issubclass (exc_cls e) ValidationError then
        mret (ErrorOutput (message e) (Some (PStr "VALIDATION_ERROR")))
      else if issubclass (exc_cls e) ItemNotFoundError then
        mret (ErrorOutput (message e) (Some (PStr "ITEM_NOT_FOUND")))
      else if issubclass (exc_cls e) ShoppingListError then
        mret (ErrorOutput (message e) (Some (code_value e)))
      else
        mret (ErrorOutput "An unexpected error occurred"
                (Some (PStr "UNKNOWN_ERROR")))).

End Tools.

(** ** Observations, runs and invariants *)

(** The list of customer [c] as a read would return it: the stored one,
    or the empty list the first access creates. *)
Definition customer_list (self : ShoppingListClient) (c : Z) : shopping_list :=
  default (ShoppingList.mk c []) (shopping_lists self !! c).

(** The quantity the list holds for SKU [s]; 0 when it has no such item. *)
Definition quantity_of (s : Z) (l : list line_item) : Z :=
  from_option LineItem.quantity 0 (find_item s l).

(** A call of one of the three methods of the client, with any arguments. *)
Inductive call :=
| GetShoppingList (customer_id : pyval)
| GetItemInfo (sku : pyval)
| UpdateList (sku quantity customer_id operation : pyval).

(** The client after a call, whether it returned or raised. *)
Definition run (c : call) (self : ShoppingListClient) : ShoppingListClient :=
  match c with
  | GetShoppingList customer_id => (get_shopping_list customer_id self).2
  | GetItemInfo sku => (get_item_info sku self).2
  | UpdateList sku quantity customer_id operation =>
      (update_list sku quantity customer_id operation self).2
  end.

(** The clients a process can hold: a fresh one and what calls make of it. *)
Inductive reachable : ShoppingListClient → Prop :=
| reachable_init : reachable init
| reachable_run c self : reachable self → reachable (run c self).

(** What the data model promises of a stored list. *)
Record list_inv (c : Z) (l : shopping_list) : Prop := ListInv {
  inv_list_id : ShoppingList.list_id l = c;
  inv_customer : 0 ≤ c;
  inv_unique : NoDup (LineItem.sku <$> ShoppingList.items l);
  inv_quantity : Forall (λ i, 0 ≤ LineItem.quantity i) (ShoppingList.items l);
  inv_catalog :
    Forall (λ i, is_Some (catalog_get (LineItem.sku i) seed_catalog))
      (ShoppingList.items l)
}.

Record store_inv (self : ShoppingListClient) : Prop := StoreInv {
  inv_seed : catalog self = seed_catalog;
  inv_lists : ∀ c l, shopping_lists self !! c = Some l → list_inv c l
}.

(** A text with exactly two decimals: an optional minus sign, one digit
    or more, a point, two digits. *)
Definition is_digit (a : ascii) : bool := bool_decide (is_Some (digit_of a)).

Definition two_decimals (text : string) : bool :=
  let body :=
    match text with
    | String "-"%char rest => rest
    | _ => text
    end in
  match reverse (String.list_ascii_of_string body) with
  | d2 :: d1 :: point :: whole =>
      is_digit d2 && is_digit d1 && bool_decide (point = "."%char)
      && negb (bool_decide (whole = [])) && forallb is_digit whole
  | _ => false
  end.

(** The three machine-readable codes of an error result. *)
Definition known_code (code : option pyval) : bool :=
  match code with
  | Some (PStr c) =>
      String.eqb c "VALIDATION_ERROR" || String.eqb c "ITEM_NOT_FOUND"
      || String.eqb c "UNKNOWN_ERROR"
  | _ => false
  end.

(** The client after the first access of customer [c] has recorded their
    empty list; the same client when a list was already there. *)
Definition touch (c : Z) (self : ShoppingListClient) : ShoppingListClient :=
  {| shopping_lists := <[c := customer_list self c]> (shopping_lists self);
     catalog := catalog self |}.

(** The client whose list for customer [c] holds the items [l]. *)
Definition store_items (c : Z) (l : list line_item) (self : ShoppingListClient)
  : ShoppingListClient :=
  {| shopping_lists :=
       <[c := ShoppingList.mk (ShoppingList.list_id (customer_list self c)) l]>
         (shopping_lists self);
     catalog := catalog self |}.

(** Weakest precondition of a computation of the client: [Q] is asked of
    a returned value, [E] of a raised exception, each with the client as
    the computation leaves it. *)
Definition wp {A} (m : M A) (Q : A → ShoppingListClient → Prop)
    (E : exception → ShoppingListClient → Prop) (self : ShoppingListClient) : Prop :=
  match m self with
  | (Ok a, self') => Q a self'
  | (Raise e, self') => E e self'
  end.

(** Every stored line item has a positive quantity. *)
Definition positive_quantities (self : ShoppingListClient) : Prop :=
  ∀ c sl, shopping_lists self !! c = Some sl →
    Forall (λ i, 0 < LineItem.quantity i) (ShoppingList.items sl).

(** * Properties *)

(** ** Rules of the weakest precondition *)

Section WpRules.
Context {A B : Type}.
Implicit Types (Q : A → ShoppingListClient → Prop).
Implicit Types (E : exception → ShoppingListClient → Prop).

Lemma wp_bind (m : M A) (f : A → M B) R E self :
  wp (m ≫= f) R E self ↔ wp m (λ a, wp (f a) R E) E self.
Proof. unfold wp, mbind, M_bind. by destruct (m self) as [[a|e] self']. Qed.

Lemma wp_ret (a : A) Q E self : wp (mret a) Q E self ↔ Q a self.
Proof. done. Qed.

Lemma wp_raise cls msg Q E self :
  wp (raise cls msg) Q E self ↔ E (Exc cls msg None) self.
Proof. done. Qed.

Lemma wp_liftR (r : result A) Q E self :
  wp (liftR r) Q E self ↔ match r with Ok a => Q a self | Raise e => E e self end.
Proof. unfold wp, liftR. by destruct r. Qed.

Lemma wp_eq (m : M A) Q E self r self' :
  m self = (r, self') →
  wp m Q E self ↔ match r with Ok a => Q a self' | Raise e => E e self' end.
Proof. unfold wp. by intros ->. Qed.

End WpRules.

Lemma wp_get_self Q E self : wp get_self Q E self ↔ Q self self.
Proof. done. Qed.

Lemma wp_set_items c l Q E self :
  wp (set_items c l) Q E self
  ↔ Q tt (Client (alter (λ sl, ShoppingList.mk (ShoppingList.list_id sl) l) c
                    (shopping_lists self)) (catalog self)).
Proof. done. Qed.

Lemma wp_lookup_list c l Q E self :
  shopping_lists self !! c = Some l →
  wp (lookup_list c) Q E self ↔ Q l self.
Proof. unfold wp, lookup_list. by intros ->. Qed.

(** ** The list helpers *)

Implicit Types (l : list line_item) (x y : line_item) (s q c : Z).

Lemma find_item_Some s l x :
  find_item s l = Some x → x ∈ l ∧ LineItem.sku x = s.
Proof.
  induction l as [|y l IH]; simpl; [done|].
  destruct (Z.eqb_spec (LineItem.sku y) s) as [Heq|Hne].
  - intros [= ->]. split; [left | done].
  - intros [Hin ?]%IH. split; [by right | done].
Qed.

Lemma find_item_None s l :
  find_item s l = None ↔ s ∉ LineItem.sku <$> l.
Proof.
  induction l as [|y l IH]; simpl.
  - split; [intros _; apply not_elem_of_nil | done].
  - rewrite not_elem_of_cons.
    destruct (Z.eqb_spec (LineItem.sku y) s) as [Heq|Hne]; split; try done.
    + intros [? _]. done.
    + intros ?. split; [done | by apply IH].
    + intros [_ ?]. by apply IH.
Qed.

Lemma find_item_app s l l' :
  find_item s (l ++ l') =
  match find_item s l with Some x => Some x | None => find_item s l' end.
Proof.
  induction l as [|y l IH]; simpl; [done|].
  by destruct (LineItem.sku y =? s).
Qed.

Lemma set_quantity_skus s q l :
  LineItem.sku <$> set_quantity s q l = LineItem.sku <$> l.
Proof.
  induction l as [|y l IH]; csimpl; [done|].
  destruct (Z.eqb_spec (LineItem.sku y) s); csimpl; [done | by rewrite IH].
Qed.

Lemma find_item_set_quantity s q s' l :
  find_item s' (set_quantity s q l) =
  if bool_decide (s' = s) then (λ _, LineItem.mk s q) <$> find_item s l
  else find_item s' l.
Proof.
  induction l as [|y l IH]; simpl; [by case_bool_decide|].
  destruct (Z.eqb_spec (LineItem.sku y) s) as [Heq|Hne]; simpl;
    destruct (Z.eqb_spec (LineItem.sku y) s') as [Heq'|Hne'];
    rewrite ?IH; case_bool_decide; simplify_eq/=; done.
Qed.

Lemma rewrite_absent s (x : line_item) l :
  s ∉ LineItem.sku <$> l →
  (λ i, if LineItem.sku i =? s then x else i) <$> l = l.
Proof.
  induction l as [|y l IH]; csimpl; [done|].
  intros [Hy Hl]%not_elem_of_cons.
  apply not_eq_sym, Z.eqb_neq in Hy as ->. by rewrite IH.
Qed.

(** With unique SKUs the in-place update rewrites the one item of that
    SKU and keeps every other item where it is. *)
Lemma set_quantity_map s q l :
  NoDup (LineItem.sku <$> l) →
  set_quantity s q l
  = (λ i, if LineItem.sku i =? s then LineItem.mk s q else i) <$> l.
Proof.
  induction l as [|y l IH]; csimpl; [done|].
  intros [Hy Hl]%NoDup_cons.
  destruct (Z.eqb_spec (LineItem.sku y) s) as [Heq|Hne].
  - subst s. by rewrite rewrite_absent.
  - by rewrite IH.
Qed.

Lemma filter_absent s l :
  s ∉ LineItem.sku <$> l → filter (λ i, LineItem.sku i ≠ s) l = l.
Proof.
  induction l as [|y l IH]; csimpl; [done|].
  intros [Hy Hl]%not_elem_of_cons.
  rewrite filter_cons_True by congruence. by rewrite IH.
Qed.

(** With unique SKUs, removing the item found for [s] leaves exactly the
    items of the other SKUs, in their order. *)
Lemma list_remove_filter s x l :
  NoDup (LineItem.sku <$> l) →
  find_item s l = Some x →
  list_remove x l = filter (λ i, LineItem.sku i ≠ s) l.
Proof.
  induction l as [|y l IH]; csimpl; [done|].
  intros [Hy Hl]%NoDup_cons.
  destruct (Z.eqb_spec (LineItem.sku y) s) as [Heq|Hne].
  - intros [= ->]. rewrite bool_decide_eq_true_2 by done.
    rewrite filter_cons_False by (by intros []).
    subst s. by rewrite filter_absent.
  - intros Hfind. rewrite filter_cons_True by done.
    rewrite bool_decide_eq_false_2.
    + by rewrite IH.
    + intros ->. by apply find_item_Some in Hfind as [_ ?].
Qed.

Lemma list_remove_sublist x l : list_remove x l `sublist_of` l.
Proof.
  induction l as [|y l IH]; simpl; [done|].
  case_bool_decide; [by apply sublist_cons | by apply sublist_skip].
Qed.

Lemma set_quantity_Forall (P : line_item → Prop) s q l :
  P (LineItem.mk s q) → Forall P l → Forall P (set_quantity s q l).
Proof.
  intros Hq. induction 1 as [|y l Hy Hl IH]; simpl; [done|].
  destruct (Z.eqb_spec (LineItem.sku y) s) as [->|]; by constructor.
Qed.

(** ** Reading a list *)

Lemma touch_present c self sl :
  shopping_lists self !! c = Some sl → touch c self = self.
Proof.
  intros Hsl. unfold touch, customer_list. rewrite Hsl. simpl.
  rewrite insert_id by done. by destruct self.
Qed.

Lemma lookup_touch c self :
  shopping_lists (touch c self) !! c = Some (customer_list self c).
Proof. apply lookup_insert_eq. Qed.

Lemma lookup_touch_ne c c' self :
  c ≠ c' → shopping_lists (touch c self) !! c' = shopping_lists self !! c'.
Proof. intros. by apply lookup_insert_ne. Qed.

Lemma customer_list_touch c c' self :
  customer_list (touch c self) c' = customer_list self c'.
Proof.
  unfold customer_list at 1. destruct (decide (c = c')) as [->|Hne].
  - by rewrite lookup_touch.
  - by rewrite lookup_touch_ne.
Qed.

Lemma touch_cases c self :
  touch c self = self
  ∨ shopping_lists self !! c = None
    ∧ touch c self
      = Client (<[c := ShoppingList.mk c []]> (shopping_lists self)) (catalog self).
Proof.
  destruct (shopping_lists self !! c) as [sl|] eqn:Hsl.
  - left. by eapply touch_present.
  - right. split; [done|]. unfold touch, customer_list. by rewrite Hsl.
Qed.

Lemma get_shopping_list_valid v self :
  isinstance_int v = true → 0 ≤ int_value v →
  get_shopping_list v self
  = (Ok (customer_list self (int_value v)), touch (int_value v) self).
Proof.
  intros Hint Hc. unfold get_shopping_list. rewrite Hint. simpl.
  apply Z.ltb_ge in Hc as ->.
  unfold mbind, M_bind, get_self, lookup_list, put_list, mret, M_ret.
  destruct (shopping_lists self !! int_value v) as [sl|] eqn:Hsl.
  - rewrite bool_decide_eq_false_2 by done. rewrite Hsl.
    erewrite touch_present by done. unfold customer_list. by rewrite Hsl.
  - rewrite bool_decide_eq_true_2 by done. simpl. rewrite lookup_insert_eq.
    unfold touch, customer_list. by rewrite Hsl.
Qed.

Lemma get_shopping_list_invalid v self :
  isinstance_int v = false ∨ int_value v < 0 →
  get_shopping_list v self
  = (Raise (Exc ValidationError "Invalid customer ID" None), self).
Proof.
  intros Hv. unfold get_shopping_list.
  destruct Hv as [->|Hneg]; [done|].
  apply Z.ltb_lt in Hneg as ->. by rewrite orb_true_r.
Qed.

Lemma wp_get_shopping_list v Q E self :
  wp (get_shopping_list v) Q E self ↔
  if isinstance_int v && (0 <=? int_value v)
  then Q (customer_list self (int_value v)) (touch (int_value v) self)
  else E (Exc ValidationError "Invalid customer ID" None) self.
Proof.
  destruct (isinstance_int v) eqn:Hint; simpl.
  - destruct (Z.leb_spec 0 (int_value v)).
    + by erewrite wp_eq by by apply get_shopping_list_valid.
    + by erewrite wp_eq by (apply get_shopping_list_invalid; by right).
  - by erewrite wp_eq by (apply get_shopping_list_invalid; by left).
Qed.

(** ** Writing a list *)

Lemma wp_set_items_touch c l Q E self :
  wp (set_items c l) Q E (touch c self) ↔ Q tt (store_items c l self).
Proof.
  rewrite wp_set_items. unfold touch, store_items. simpl.
  by rewrite alter_insert_eq.
Qed.

Lemma lookup_store_items c l self :
  shopping_lists (store_items c l self) !! c
  = Some (ShoppingList.mk (ShoppingList.list_id (customer_list self c)) l).
Proof. apply lookup_insert_eq. Qed.

Lemma lookup_store_items_ne c c' l self :
  c ≠ c' → shopping_lists (store_items c l self) !! c' = shopping_lists self !! c'.
Proof. intros. by apply lookup_insert_ne. Qed.

(** One step of symbolic execution of a client computation. *)
Ltac wp_step :=
  match goal with
  | |- wp (_ ≫= _) _ _ _ => apply wp_bind
  | |- wp (liftR ?r) _ _ _ => apply wp_liftR; destruct r as [[]|?] eqn:?
  | |- wp get_self _ _ _ => apply wp_get_self
  | |- wp (mret _) _ _ _ => apply wp_ret
  | |- wp (raise _ _) _ _ _ => apply wp_raise
  | |- wp (get_shopping_list _) _ _ _ =>
      apply wp_get_shopping_list; case_match
  | |- wp (set_items _ _) _ _ (touch _ _) => apply wp_set_items_touch
  | |- wp (lookup_list _) _ _ (touch _ _) =>
      erewrite wp_lookup_list by apply lookup_touch
  | |- wp (lookup_list _) _ _ (store_items _ _ _) =>
      erewrite wp_lookup_list by apply lookup_store_items
  | |- wp (if ?b then _ else _) _ _ _ => destruct b eqn:?
  | |- wp (match ?o with Some _ => _ | None => _ end) _ _ _ => destruct o eqn:?
  end.

Lemma update_list_frame_wp sku quantity customer_id operation (c2 : Z) self :
  int_value customer_id ≠ c2 →
  wp (update_list sku quantity customer_id operation)
    (λ _ self', shopping_lists self' !! c2 = shopping_lists self !! c2)
    (λ _ self', shopping_lists self' !! c2 = shopping_lists self !! c2) self.
Proof.
  intros Hne. unfold update_list.
  repeat wp_step; rewrite ?lookup_store_items_ne, ?lookup_touch_ne by done; done.
Qed.

Lemma list_remove_Forall (P : line_item → Prop) x l :
  Forall P l → Forall P (list_remove x l).
Proof.
  induction 1 as [|y l Hy Hl IH]; simpl; [done|].
  case_bool_decide; [done | by constructor].
Qed.

Lemma list_remove_NoDup x l :
  NoDup (LineItem.sku <$> l) → NoDup (LineItem.sku <$> list_remove x l).
Proof.
  intros Hnd. apply (sublist_NoDup _ (LineItem.sku <$> l)); [done|].
  apply fmap_sublist, list_remove_sublist.
Qed.

(** ** The invariant of the store *)

Lemma validate_quantity_Ok v :
  validate_quantity v = Ok tt ↔ isinstance_int v = true ∧ 0 ≤ int_value v.
Proof.
  unfold validate_quantity. destruct (isinstance_int v); simpl;
    [destruct (Z.ltb_spec (int_value v) 0)|];
    (split; [try done | intros [? ?]; try done; lia]).
Qed.

Lemma validate_sku_Ok v :
  validate_sku v = Ok tt ↔ isinstance_int v = true ∧ 0 < int_value v.
Proof.
  unfold validate_sku. destruct (isinstance_int v); simpl;
    [destruct (Z.leb_spec (int_value v) 0)|];
    (split; [try done | intros [? ?]; try done; lia]).
Qed.

Lemma validate_quantity_Raise v e :
  validate_quantity v = Raise e → isinstance_int v = false ∨ int_value v < 0.
Proof.
  unfold validate_quantity. destruct (isinstance_int v); simpl; [|by left].
  destruct (Z.ltb_spec (int_value v) 0); [by right | done].
Qed.

Lemma validate_sku_Raise v e :
  validate_sku v = Raise e → isinstance_int v = false ∨ int_value v ≤ 0.
Proof.
  unfold validate_sku. destruct (isinstance_int v); simpl; [|by left].
  destruct (Z.leb_spec (int_value v) 0); [by right | done].
Qed.

Lemma customer_list_inv c self :
  store_inv self → 0 ≤ c → list_inv c (customer_list self c).
Proof.
  intros [_ Hinv] Hc. unfold customer_list.
  destruct (shopping_lists self !! c) as [sl|] eqn:Hsl; simpl; [by apply Hinv|].
  split; simpl; try done. apply NoDup_nil_2.
Qed.

Lemma store_inv_touch c self : store_inv self → 0 ≤ c → store_inv (touch c self).
Proof.
  intros Hinv Hc. split; [apply Hinv|]. intros c' sl.
  destruct (decide (c = c')) as [<-|Hne].
  - rewrite lookup_touch. intros [= <-]. by apply customer_list_inv.
  - rewrite lookup_touch_ne by done. apply Hinv.
Qed.

Lemma store_inv_store_items c l self :
  store_inv self → list_inv c (ShoppingList.mk c l) →
  store_inv (store_items c l self).
Proof.
  intros Hinv Hl. split; [apply Hinv|]. intros c' sl.
  destruct (decide (c = c')) as [<-|Hne].
  - rewrite lookup_store_items. intros [= <-].
    pose proof (inv_customer _ _ Hl) as Hc.
    by rewrite (inv_list_id _ _ (customer_list_inv c self Hinv Hc)).
  - rewrite lookup_store_items_ne by done. apply Hinv.
Qed.

(** Turns the outcome of a passed check into the fact it checked. *)
Ltac checked :=
  repeat match goal with
    | H : _ && _ = true |- _ => apply andb_prop in H as [? ?]
    | H : (_ <=? _) = true |- _ => apply Z.leb_le in H
    | H : (_ <? _) = true |- _ => apply Z.ltb_lt in H
    | H : (_ <=? _) = false |- _ => apply Z.leb_gt in H
    | H : (_ <? _) = false |- _ => apply Z.ltb_ge in H
    | H : validate_quantity _ = Ok tt |- _ =>
        apply validate_quantity_Ok in H as [? ?]
    | H : validate_sku _ = Ok tt |- _ => apply validate_sku_Ok in H as [? ?]
    | H : validate_quantity _ = Raise _ |- _ =>
        apply validate_quantity_Raise in H as [?|?]
    | H : validate_sku _ = Raise _ |- _ => apply validate_sku_Raise in H as [?|?]
    | H : negb (bool_decide _) = false |- _ =>
        apply negb_false_iff, bool_decide_eq_true_1 in H
    | H : negb (bool_decide _) = true |- _ =>
        apply negb_true_iff, bool_decide_eq_false_1 in H
    end;
  cbn [int_value isinstance_int] in *.

Lemma append_inv c s q l :
  list_inv c (ShoppingList.mk c l) →
  find_item s l = None → 0 ≤ q → is_Some (catalog_get s seed_catalog) →
  list_inv c (ShoppingList.mk c (l ++ [LineItem.mk s q])).
Proof.
  intros [Hid Hc Hnd Hq Hcat] Hnone%find_item_None ? ?.
  cbn [ShoppingList.items] in *.
  split; cbn [ShoppingList.list_id ShoppingList.items]; try done.
  - rewrite fmap_app. apply NoDup_app. split; [done|]. split.
    + intros s' Hs' ->%list_elem_of_singleton. done.
    + apply NoDup_singleton.
  - apply Forall_app. split; [done|]. by apply Forall_singleton.
  - apply Forall_app. split; [done|]. by apply Forall_singleton.
Qed.

Lemma set_quantity_inv c s q l :
  list_inv c (ShoppingList.mk c l) →
  0 ≤ q → is_Some (catalog_get s seed_catalog) →
  list_inv c (ShoppingList.mk c (set_quantity s q l)).
Proof.
  intros [Hid Hc Hnd Hq Hcat] ? ?.
  split; cbn [ShoppingList.list_id ShoppingList.items] in *; try done.
  - by rewrite set_quantity_skus.
  - by apply set_quantity_Forall.
  - by apply set_quantity_Forall.
Qed.

Lemma list_remove_inv c x l :
  list_inv c (ShoppingList.mk c l) →
  list_inv c (ShoppingList.mk c (list_remove x l)).
Proof.
  intros [Hid Hc Hnd Hq Hcat].
  split; cbn [ShoppingList.list_id ShoppingList.items] in *; try done.
  - by apply list_remove_NoDup.
  - by apply list_remove_Forall.
  - by apply list_remove_Forall.
Qed.

Lemma customer_items_inv c self :
  store_inv self → 0 ≤ c →
  list_inv c (ShoppingList.mk c (ShoppingList.items (customer_list self c))).
Proof.
  intros Hinv Hc. destruct (customer_list_inv c self Hinv Hc). by split.
Qed.

Lemma update_list_inv sku quantity customer_id operation self :
  store_inv self →
  wp (update_list sku quantity customer_id operation)
    (λ _, store_inv) (λ _, store_inv) self.
Proof.
  intros Hinv. unfold update_list.
  repeat wp_step; try done; checked.
  all: try by apply store_inv_touch.
  all: apply store_inv_store_items; [done|].
  all: pose proof (customer_items_inv (int_value customer_id) self Hinv).
  all: rewrite (inv_seed _ Hinv) in *.
  - apply set_quantity_inv; auto.
  - apply append_inv; auto.
  - apply set_quantity_inv; auto with lia.
  - apply list_remove_inv; auto.
  - apply set_quantity_inv; auto with lia.
  - apply append_inv; auto with lia.
  - apply list_remove_inv; auto.
Qed.

Lemma get_shopping_list_inv customer_id self :
  store_inv self →
  wp (get_shopping_list customer_id) (λ _, store_inv) (λ _, store_inv) self.
Proof.
  intros Hinv. wp_step; checked; [by apply store_inv_touch | done].
Qed.

(** ** The catalog *)

(** The keys of the seed catalog are the SKUs 101 to 107. *)
Lemma seed_catalog_keys s :
  is_Some (catalog_get s seed_catalog) ↔ 101 ≤ s ≤ 107.
Proof.
  unfold seed_catalog. cbn [catalog_get].
  repeat match goal with
    | |- context [?k =? s] =>
        destruct (Z.eqb_spec k s) as [<-|?];
        [split; [intros _; lia | intros _; by eexists]|]
    end.
  split; [by intros [] | intros ?; lia].
Qed.

(** Every seed price is already the double its two-decimal text denotes:
    formatting and reading it back changes nothing, so [get_item_info]
    rewrites the catalog entry with the value it held. *)
Lemma seed_normal s item :
  catalog_get s seed_catalog = Some item →
  CatalogItem.sku item = s
  ∧ two_decimals (format_currency (CatalogItem.unit_price item)) = true
  ∧ py_float (format_currency (CatalogItem.unit_price item))
    = Ok (CatalogItem.unit_price item)
  ∧ catalog_set_price s (CatalogItem.unit_price item) seed_catalog = seed_catalog.
Proof.
  unfold seed_catalog. cbn [catalog_get].
  repeat match goal with
    | |- context [?k =? s] =>
        destruct (Z.eqb_spec k s) as [<-|?]; [intros [= <-]; by vm_compute|]
    end.
  done.
Qed.

Lemma seed_literals :
  py_float "3.50" = Ok 3.5%float ∧ py_float "5.00" = Ok 5%float
  ∧ py_float "2.80" = Ok 0x1.6666666666666p+1%float
  ∧ py_float "4.20" = Ok 0x1.0cccccccccccdp+2%float
  ∧ py_float "8.50" = Ok 8.5%float ∧ py_float "3.00" = Ok 3%float
  ∧ py_float "2.50" = Ok 2.5%float.
Proof. by vm_compute. Qed.

Lemma get_item_info_seed v self :
  catalog self = seed_catalog →
  get_item_info v self =
  if isinstance_int v && (0 <? int_value v) then
    match catalog_get (int_value v) seed_catalog with
    | Some item => (Ok item, self)
    | None =>
        (Raise (Exc ItemNotFoundError
                  ("Item with SKU " +:+ py_str v +:+ " not found") None), self)
    end
  else (Raise (Exc InvalidSkuError "SKU must be a positive integer" None), self).
Proof.
  intros Hseed. unfold get_item_info, validate_sku.
  destruct (isinstance_int v); cbn [negb orb andb]; [|done].
  rewrite Z.ltb_antisym. destruct (int_value v <=? 0); cbn [negb]; [done|].
  unfold mbind, M_bind, liftR, get_self. rewrite Hseed.
  destruct (catalog_get (int_value v) seed_catalog) as [item|] eqn:Hget; [|done].
  destruct (seed_normal _ _ Hget) as (_ & _ & -> & Hset).
  unfold set_price, mret, M_ret. rewrite Hseed, Hset.
  destruct self, item; simpl in *. by subst.
Qed.

Lemma get_item_info_inv v self :
  store_inv self → wp (get_item_info v) (λ _, store_inv) (λ _, store_inv) self.
Proof.
  intros Hinv. unfold wp. rewrite get_item_info_seed by apply Hinv.
  repeat case_match; by simplify_eq.
Qed.

(** ** Reachable clients *)

Lemma init_inv : store_inv init.
Proof. split; [done|]. intros c l. unfold init. simpl. by rewrite lookup_empty. Qed.

Lemma run_inv (k : call) self : store_inv self → store_inv (run k self).
Proof.
  intros Hinv. destruct k as [customer_id|sku|sku quantity customer_id operation];
    simpl.
  - pose proof (get_shopping_list_inv customer_id self Hinv) as H.
    unfold wp in H. by repeat case_match.
  - pose proof (get_item_info_inv sku self Hinv) as H.
    unfold wp in H. by repeat case_match.
  - pose proof (update_list_inv sku quantity customer_id operation self Hinv) as H.
    unfold wp in H. by repeat case_match.
Qed.

Lemma reachable_inv self : reachable self → store_inv self.
Proof. induction 1; [apply init_inv | by apply run_inv]. Qed.

(** ** The update policies on valid arguments *)

Lemma wp_result {A} (m : M A) self (target : result A * ShoppingListClient) :
  wp m (λ a self', (Ok a, self') = target) (λ e self', (Raise e, self') = target)
    self →
  m self = target.
Proof. unfold wp. by destruct (m self) as [[a|e] self']. Qed.

Section Policies.

Variables (self : ShoppingListClient) (s q c : Z).
Hypothesis Hsku : 0 < s.
Hypothesis Hcat : is_Some (catalog_get s (catalog self)).
Hypothesis Hq : 0 ≤ q.
Hypothesis Hc : 0 ≤ c.

#[local] Abbreviation l := (ShoppingList.items (customer_list self c)).
#[local] Abbreviation id := (ShoppingList.list_id (customer_list self c)).
#[local] Abbreviation stored l' :=
  (Ok (ShoppingList.mk id l'), store_items c l' self).

(** Symbolic execution on arguments that pass every check: branches that
    contradict the hypotheses are closed on the way. *)
Ltac run_policy :=
  apply wp_result; unfold update_list;
  repeat (wp_step; cbn [int_value isinstance_int] in *; checked;
          try done; try lia; simplify_eq);
  try done.

Lemma update_list_add_absent :
  find_item s l = None →
  update_list (PInt s) (PInt q) (PInt c) (PStr "add") self
  = stored (l ++ [LineItem.mk s q]).
Proof. intros Hfind. run_policy. Qed.

Lemma update_list_add_present x :
  find_item s l = Some x → 0 ≤ LineItem.quantity x →
  update_list (PInt s) (PInt q) (PInt c) (PStr "add") self
  = stored (set_quantity s (LineItem.quantity x + q) l).
Proof. intros Hfind Hx. run_policy. Qed.

Lemma update_list_remove_absent :
  find_item s l = None →
  update_list (PInt s) (PInt q) (PInt c) (PStr "remove") self
  = (Raise (Exc ItemNotFoundError
              ("Cannot remove - item with SKU " +:+ pretty s
               +:+ " not found in list") None),
     touch c self).
Proof. intros Hfind. run_policy. Qed.

Lemma update_list_remove_excess x :
  find_item s l = Some x → LineItem.quantity x < q →
  update_list (PInt s) (PInt q) (PInt c) (PStr "remove") self
  = (Raise (Exc ValidationError
              ("Cannot remove " +:+ pretty q +:+ " - only "
               +:+ pretty (LineItem.quantity x) +:+ " available") None),
     touch c self).
Proof. intros Hfind Hx. run_policy. Qed.

Lemma update_list_remove_part x :
  find_item s l = Some x → q < LineItem.quantity x →
  update_list (PInt s) (PInt q) (PInt c) (PStr "remove") self
  = stored (set_quantity s (LineItem.quantity x - q) l).
Proof. intros Hfind Hx. run_policy. Qed.

Lemma update_list_remove_all x :
  find_item s l = Some x → q = LineItem.quantity x →
  update_list (PInt s) (PInt q) (PInt c) (PStr "remove") self
  = stored (list_remove x l).
Proof. intros Hfind Hx. run_policy. Qed.

Lemma update_list_set_present x :
  find_item s l = Some x → 0 < q →
  update_list (PInt s) (PInt q) (PInt c) (PStr "set") self
  = stored (set_quantity s q l).
Proof. intros Hfind Hx. run_policy. Qed.

Lemma update_list_set_absent :
  find_item s l = None → 0 < q →
  update_list (PInt s) (PInt q) (PInt c) (PStr "set") self
  = stored (l ++ [LineItem.mk s q]).
Proof. intros Hfind Hx. run_policy. Qed.

Lemma update_list_set_zero_present x :
  find_item s l = Some x → q = 0 →
  update_list (PInt s) (PInt q) (PInt c) (PStr "set") self
  = stored (list_remove x l).
Proof. intros Hfind Hx. run_policy. Qed.

Lemma update_list_set_zero_absent :
  find_item s l = None → q = 0 →
  update_list (PInt s) (PInt q) (PInt c) (PStr "set") self
  = (Ok (customer_list self c), touch c self).
Proof. intros Hfind Hx. run_policy. Qed.

End Policies.

(** A stored list is found where it was stored, and storing the items a
    list already has changes nothing but the first-access record. *)
Lemma customer_list_store_items c c' l self :
  customer_list (store_items c l self) c'
  = if bool_decide (c = c')
    then ShoppingList.mk (ShoppingList.list_id (customer_list self c)) l
    else customer_list self c'.
Proof.
  unfold customer_list at 1. case_bool_decide as Hcc; [subst c'|].
  - by rewrite lookup_store_items.
  - by rewrite lookup_store_items_ne.
Qed.

Lemma store_items_same c self :
  store_items c (ShoppingList.items (customer_list self c)) self = touch c self.
Proof. unfold store_items, touch. by destruct (customer_list self c). Qed.

Lemma store_items_store_items c l l' self :
  store_items c l' (store_items c l self) = store_items c l' self.
Proof.
  unfold store_items at 1 3. simpl. rewrite customer_list_store_items.
  rewrite bool_decide_eq_true_2 by done. simpl. by rewrite insert_insert_eq.
Qed.

(** ** Atomicity and independence *)

(** C1. [update_list] is atomic, whatever its arguments: when it returns,
    the value returned is the customer's list as the client now stores it;
    when it raises, every customer's list reads as before and the catalog
    is untouched, the client being the one before the call or, when the
    customer had no list yet, that client with the customer's empty list
    recorded by the first access. *)
Theorem update_list_atomic (sku quantity customer_id operation : pyval)
    (self : ShoppingListClient) :
  match update_list sku quantity customer_id operation self with
  | (Ok new_list, self') =>
      shopping_lists self' !! int_value customer_id = Some new_list
      ∧ customer_list self' (int_value customer_id) = new_list
  | (Raise e, self') =>
      (∀ c, customer_list self' c = customer_list self c)
      ∧ catalog self' = catalog self
      ∧ (self' = self
         ∨ shopping_lists self !! int_value customer_id = None
           ∧ self' = Client (<[int_value customer_id :=
                                ShoppingList.mk (int_value customer_id) []]>
                               (shopping_lists self)) (catalog self))
  end.
Proof.
  change (wp (update_list sku quantity customer_id operation)
    (λ new_list self',
      shopping_lists self' !! int_value customer_id = Some new_list
      ∧ customer_list self' (int_value customer_id) = new_list)
    (λ e self',
      (∀ c, customer_list self' c = customer_list self c)
      ∧ catalog self' = catalog self
      ∧ (self' = self
         ∨ shopping_lists self !! int_value customer_id = None
           ∧ self' = Client (<[int_value customer_id :=
                                ShoppingList.mk (int_value customer_id) []]>
                               (shopping_lists self)) (catalog self)))
    self).
  unfold update_list. repeat wp_step.
  all: try (split; [by intros c'|]; split; [done|]; by left).
  all: try (split; [intros c'; apply customer_list_touch|]; split; [done|];
            apply touch_cases).
  all: unfold customer_list; by rewrite ?lookup_store_items, ?lookup_touch.
Qed.

(** C7. Lists of distinct customers are independent: a call of
    [update_list] or of [get_shopping_list] for one customer, with any
    other arguments and whether it returns or raises, leaves the stored
    list of every other customer as it was. *)
Theorem lists_independent (customer_id : pyval) (c2 : Z)
    (self : ShoppingListClient) :
  int_value customer_id ≠ c2 →
  (∀ sku quantity operation,
     let self' := (update_list sku quantity customer_id operation self).2 in
     shopping_lists self' !! c2 = shopping_lists self !! c2
     ∧ customer_list self' c2 = customer_list self c2)
  ∧ (let self' := (get_shopping_list customer_id self).2 in
     shopping_lists self' !! c2 = shopping_lists self !! c2
     ∧ customer_list self' c2 = customer_list self c2).
Proof.
  intros Hne. split.
  - intros sku quantity operation self'. subst self'.
    pose proof (update_list_frame_wp sku quantity customer_id operation c2 self Hne)
      as Hwp.
    unfold wp, customer_list in *.
    destruct (update_list _ _ _ _ self) as [[sl|e] self']; simpl;
      by rewrite Hwp.
  - intros self'. subst self'.
    assert (wp (get_shopping_list customer_id)
              (λ _ self', shopping_lists self' !! c2 = shopping_lists self !! c2)
              (λ _ self', shopping_lists self' !! c2 = shopping_lists self !! c2)
              self) as Hwp.
    { wp_step; [by apply lookup_touch_ne | done]. }
    unfold wp, customer_list in *.
    destruct (get_shopping_list _ self) as [[sl|e] self']; simpl;
      by rewrite Hwp.
Qed.

(** Customer 7 has a list; adding for customer 0 leaves it alone. *)
Lemma lists_independent_witness :
  let self := run (UpdateList (PInt 102) (PInt 5) (PInt 7) (PStr "set")) init in
  int_value (PInt 0) ≠ 7
  ∧ shopping_lists
      (update_list (PInt 101) (PInt 2) (PInt 0) (PStr "add") self).2 !! 7
    = shopping_lists self !! 7.
Proof.
  split; [done|].
  apply (lists_independent (PInt 0) 7
           (run (UpdateList (PInt 102) (PInt 5) (PInt 7) (PStr "set")) init)).
  done.
Defined.

(** ** Reading *)

(** C6. On a reachable client, [get_shopping_list] of a non-negative
    integer [c] (a Python [bool] counts as the integer it equals) returns
    the customer's list: the stored one, or the empty list
    [{list_id: c, items: []}] that this first access creates and stores.
    Its [list_id] is [c], and calling again at once returns the same list
    and leaves the client as it is.  With any other argument the call
    raises [ValidationError] and changes nothing. *)
Theorem get_shopping_list_spec (customer_id : pyval) (self : ShoppingListClient) :
  reachable self →
  if isinstance_int customer_id && (0 <=? int_value customer_id) then
    ∃ sl self',
      get_shopping_list customer_id self = (Ok sl, self')
      ∧ ShoppingList.list_id sl = int_value customer_id
      ∧ (shopping_lists self !! int_value customer_id = None →
         sl = ShoppingList.mk (int_value customer_id) []
         ∧ self' = Client (<[int_value customer_id := sl]> (shopping_lists self))
                     (catalog self))
      ∧ (∀ old, shopping_lists self !! int_value customer_id = Some old →
         sl = old ∧ self' = self)
      ∧ get_shopping_list customer_id self' = (Ok sl, self')
  else
    get_shopping_list customer_id self
    = (Raise (Exc ValidationError "Invalid customer ID" None), self).
Proof.
  intros Hinv%reachable_inv.
  destruct (isinstance_int customer_id) eqn:Hint; simpl.
  - destruct (Z.leb_spec 0 (int_value customer_id)) as [Hc|Hc].
    + exists (customer_list self (int_value customer_id)),
        (touch (int_value customer_id) self).
      split; [by apply get_shopping_list_valid|].
      split; [by apply customer_list_inv|].
      split; [|split].
      * intros Hnone. unfold touch, customer_list. by rewrite Hnone.
      * intros old Hold. split; [|by eapply touch_present].
        unfold customer_list. by rewrite Hold.
      * rewrite get_shopping_list_valid by done.
        rewrite customer_list_touch. f_equal.
        eapply touch_present, lookup_touch.
    + apply get_shopping_list_invalid. by right.
  - apply get_shopping_list_invalid. by left.
Qed.

(** The first read of customer 7 on a fresh client. *)
Lemma get_shopping_list_spec_witness :
  reachable init
  ∧ ∃ sl self',
      get_shopping_list (PInt 7) init = (Ok sl, self')
      ∧ ShoppingList.list_id sl = 7
      ∧ (shopping_lists init !! 7 = None →
         sl = ShoppingList.mk 7 []
         ∧ self' = Client (<[7 := sl]> (shopping_lists init)) (catalog init))
      ∧ (∀ old, shopping_lists init !! 7 = Some old → sl = old ∧ self' = init)
      ∧ get_shopping_list (PInt 7) self' = (Ok sl, self').
Proof.
  split; [apply reachable_init|].
  apply (get_shopping_list_spec (PInt 7) init reachable_init).
Defined.

(** C8. On a reachable client and for a positive integer SKU [s],
    [get_item_info] raises [ItemNotFoundError] when the catalog has no
    entry for [s] and otherwise returns the entry with its price read
    back from its two-decimal text [f"{price:.2f}"].  SKU 999 is absent;
    SKU 101 is the apple, whose price formats as [3.50] and comes back as
    the double 3.5.  The client is unchanged in each case. *)
Theorem get_item_info_spec (s : Z) (self : ShoppingListClient) :
  reachable self → 0 < s →
  match catalog_get s (catalog self) with
  | None =>
      get_item_info (PInt s) self
      = (Raise (Exc ItemNotFoundError
                  ("Item with SKU " +:+ pretty s +:+ " not found") None), self)
  | Some item =>
      ∃ price,
        two_decimals (format_currency (CatalogItem.unit_price item)) = true
        ∧ py_float (format_currency (CatalogItem.unit_price item)) = Ok price
        ∧ get_item_info (PInt s) self
          = (Ok (CatalogItem.mk s (CatalogItem.item_name item) price), self)
  end
  ∧ (∃ msg, get_item_info (PInt 999) self
            = (Raise (Exc ItemNotFoundError msg None), self))
  ∧ (∃ item, catalog_get 101 (catalog self) = Some item
             ∧ format_currency (CatalogItem.unit_price item) = "3.50")
  ∧ get_item_info (PInt 101) self = (Ok (CatalogItem.mk 101 "Apple" 3.5), self).
Proof.
  intros Hinv%reachable_inv Hs.
  pose proof (inv_seed _ Hinv) as Hseed. rewrite Hseed.
  split; [|split; [|split]].
  - rewrite get_item_info_seed by done. cbn [isinstance_int int_value andb py_str].
    apply Z.ltb_lt in Hs as ->.
    destruct (catalog_get s seed_catalog) as [item|] eqn:Hget; [|done].
    destruct (seed_normal _ _ Hget) as (Hsku & Htwo & Hfloat & _).
    exists (CatalogItem.unit_price item). repeat split; try done.
    destruct item; simpl in *. by subst.
  - eexists. by rewrite get_item_info_seed.
  - by eexists.
  - by rewrite get_item_info_seed.
Qed.

(** SKU 103, the milk at 2.80, on a fresh client. *)
Lemma get_item_info_spec_witness :
  reachable init ∧ 0 < 103
  ∧ ∃ price,
      two_decimals (format_currency 0x1.6666666666666p+1) = true
      ∧ py_float (format_currency 0x1.6666666666666p+1) = Ok price
      ∧ get_item_info (PInt 103) init
        = (Ok (CatalogItem.mk 103 "Milk" price), init).
Proof.
  split; [apply reachable_init|]. split; [done|].
  apply (get_item_info_spec 103 init reachable_init). done.
Defined.

(** ** Updating *)

Lemma set_quantity_app_absent s q q' l :
  find_item s l = None →
  set_quantity s q' (l ++ [LineItem.mk s q]) = l ++ [LineItem.mk s q'].
Proof.
  induction l as [|y l IH]; simpl.
  - by rewrite Z.eqb_refl.
  - destruct (LineItem.sku y =? s); [done|]. intros Hl. by rewrite IH.
Qed.

Lemma set_quantity_twice s q q' l :
  set_quantity s q' (set_quantity s q l) = set_quantity s q' l.
Proof.
  induction l as [|y l IH]; simpl; [done|].
  destruct (Z.eqb_spec (LineItem.sku y) s) as [Heq|Hne]; simpl.
  - by rewrite Heq, Z.eqb_refl.
  - apply Z.eqb_neq in Hne as ->. by rewrite IH.
Qed.

Lemma set_quantity_same s x l :
  find_item s l = Some x → set_quantity s (LineItem.quantity x) l = l.
Proof.
  induction l as [|y l IH]; simpl; [done|].
  destruct (Z.eqb_spec (LineItem.sku y) s) as [Heq|Hne].
  - intros [= <-]. by destruct y.
  - intros Hl. by rewrite IH.
Qed.

Lemma find_item_filter s l :
  find_item s (filter (λ i, LineItem.sku i ≠ s) l) = None.
Proof.
  apply find_item_None. intros (x & -> & [Hx _]%list_elem_of_filter)%list_elem_of_fmap.
  done.
Qed.

Lemma find_item_rewrite s q x l :
  find_item s l = Some x →
  find_item s ((λ i, if LineItem.sku i =? s then LineItem.mk s q else i) <$> l)
  = Some (LineItem.mk s q).
Proof.
  induction l as [|y l IH]; csimpl; [done|].
  destruct (Z.eqb_spec (LineItem.sku y) s) as [Heq|Hne]; simpl.
  - by rewrite Z.eqb_refl.
  - apply Z.eqb_neq in Hne as ->. apply IH.
Qed.

(** On a client that satisfies the invariant, the list of a customer
    carries the customer's id, and storing items is an insertion. *)
Lemma customer_list_eta c self :
  store_inv self → 0 ≤ c →
  customer_list self c
  = ShoppingList.mk c (ShoppingList.items (customer_list self c)).
Proof.
  intros Hinv Hc. destruct (customer_list_inv c self Hinv Hc) as [Hid _ _ _ _].
  destruct (customer_list self c). simpl in *. by subst.
Qed.

Lemma store_items_insert c l self :
  store_inv self → 0 ≤ c →
  store_items c l self
  = Client (<[c := ShoppingList.mk c l]> (shopping_lists self)) (catalog self).
Proof.
  intros Hinv Hc. unfold store_items.
  by rewrite (inv_list_id _ _ (customer_list_inv c self Hinv Hc)).
Qed.

Lemma catalog_sku_positive s self :
  store_inv self → is_Some (catalog_get s (catalog self)) → 0 < s.
Proof.
  intros Hinv. rewrite (inv_seed _ Hinv), seed_catalog_keys. lia.
Qed.

(** C3. On a reachable client, for a catalog SKU [s], a non-negative
    quantity [q] and a customer [c], [update_list] with operation
    [remove]: raises [ItemNotFoundError] when the customer's list has no
    item for [s], every list reading as before; raises [ValidationError]
    and leaves the client unchanged when [q] exceeds the quantity of the
    item; otherwise returns and stores the list in which the item holds
    the difference when that is positive (the other items and the order
    kept), and in which the item is gone when it is not. *)
Theorem remove_spec (s q c : Z) (self : ShoppingListClient) :
  reachable self → is_Some (catalog_get s (catalog self)) → 0 ≤ q → 0 ≤ c →
  let l := ShoppingList.items (customer_list self c) in
  let r := update_list (PInt s) (PInt q) (PInt c) (PStr "remove") self in
  match find_item s l with
  | None =>
      (∃ msg, r.1 = Raise (Exc ItemNotFoundError msg None))
      ∧ ∀ c', customer_list r.2 c' = customer_list self c'
  | Some x =>
      if LineItem.quantity x <? q then
        ∃ msg, r = (Raise (Exc ValidationError msg None), self)
      else
        let l' :=
          if 0 <? LineItem.quantity x - q then
            (λ i, if LineItem.sku i =? s
                  then LineItem.mk s (LineItem.quantity x - q) else i) <$> l
          else filter (λ i, LineItem.sku i ≠ s) l in
        r = (Ok (ShoppingList.mk c l'),
             Client (<[c := ShoppingList.mk c l']> (shopping_lists self))
               (catalog self))
        ∧ find_item s l'
          = (if 0 <? LineItem.quantity x - q
             then Some (LineItem.mk s (LineItem.quantity x - q)) else None)
  end.
Proof.
  intros Hinv%reachable_inv Hcat Hq Hc l r.
  pose proof (catalog_sku_positive s self Hinv Hcat) as Hs.
  destruct (customer_list_inv c self Hinv Hc) as [Hid _ Hnd Hqs _].
  fold l in Hnd, Hqs. subst r.
  destruct (find_item s l) as [x|] eqn:Hfind.
  - assert (shopping_lists self !! c = Some (customer_list self c)) as Hsl.
    { unfold customer_list in *. destruct (shopping_lists self !! c); [done|].
      by subst l. }
    destruct (Z.ltb_spec (LineItem.quantity x) q) as [Hlt|Hge].
    + eexists. erewrite update_list_remove_excess by done.
      by erewrite touch_present.
    + cbv zeta. rewrite <-(store_items_insert _ _ _ Hinv Hc).
      destruct (Z.ltb_spec 0 (LineItem.quantity x - q)) as [Hpos|Hzero].
      * erewrite update_list_remove_part by (done || lia).
        rewrite Hid, set_quantity_map by done. fold l.
        split; [done|]. by eapply find_item_rewrite.
      * erewrite update_list_remove_all by (done || lia).
        rewrite Hid. erewrite list_remove_filter by done.
        split; [done|]. apply find_item_filter.
  - erewrite update_list_remove_absent by done. simpl.
    split; [by eexists|]. intros c'. apply customer_list_touch.
Qed.

(** The scenario of the specification: add 2 of SKU 101 for customer 0,
    then remove 2, and the list is empty. *)
Lemma remove_spec_witness :
  let self := run (UpdateList (PInt 101) (PInt 2) (PInt 0) (PStr "add")) init in
  reachable self ∧ is_Some (catalog_get 101 (catalog self)) ∧ 0 ≤ 2 ∧ 0 ≤ 0
  ∧ update_list (PInt 101) (PInt 2) (PInt 0) (PStr "remove") self
    = (Ok (ShoppingList.mk 0 []),
       Client (<[0 := ShoppingList.mk 0 []]> (shopping_lists self)) (catalog self)).
Proof.
  intros self.
  assert (reachable self) as Hreach by apply reachable_run, reachable_init.
  assert (is_Some (catalog_get 101 (catalog self))) as Hcat by (by eexists).
  repeat (split; [done|]).
  apply (remove_spec 101 2 0 self Hreach Hcat); done.
Defined.

Lemma customer_items_store_items c l self :
  ShoppingList.items (customer_list (store_items c l self) c) = l.
Proof.
  rewrite customer_list_store_items. by rewrite bool_decide_eq_true_2.
Qed.

Lemma customer_id_store_items c l self :
  ShoppingList.list_id (customer_list (store_items c l self) c)
  = ShoppingList.list_id (customer_list self c).
Proof.
  rewrite customer_list_store_items. by rewrite bool_decide_eq_true_2.
Qed.

(** C4. On a reachable client, for a catalog SKU [s], non-negative
    quantities [q1] and [q2] and a customer [c], adding [q1] and then
    [q2] returns the same list and leaves the same client as adding
    [q1 + q2] at once; all three calls return, and the list then holds
    for [s] the quantity it held before (0 when it had no such item) plus
    [q1 + q2]. *)
Theorem add_cumulative (s q1 q2 c : Z) (self : ShoppingListClient) :
  reachable self → is_Some (catalog_get s (catalog self)) →
  0 ≤ q1 → 0 ≤ q2 → 0 ≤ c →
  let add q := update_list (PInt s) (PInt q) (PInt c) (PStr "add") in
  ∃ sl1 self1 sl self',
    add q1 self = (Ok sl1, self1)
    ∧ add q2 self1 = (Ok sl, self')
    ∧ add (q1 + q2) self = (Ok sl, self')
    ∧ quantity_of s (ShoppingList.items sl)
      = quantity_of s (ShoppingList.items (customer_list self c)) + q1 + q2.
Proof.
  intros Hinv%reachable_inv Hcat Hq1 Hq2 Hc add. subst add.
  pose proof (catalog_sku_positive s self Hinv Hcat) as Hs.
  destruct (customer_list_inv c self Hinv Hc) as [_ _ _ Hqs _].
  unfold quantity_of.
  set (l := ShoppingList.items (customer_list self c)).
  destruct (find_item s l) as [x|] eqn:Hfind.
  - assert (0 ≤ LineItem.quantity x) as Hx.
    { apply find_item_Some in Hfind as [Hin _].
      by apply (proj1 (Forall_forall _ _) Hqs). }
    set (self1 := store_items c (set_quantity s (LineItem.quantity x + q1) l) self).
    assert (find_item s (ShoppingList.items (customer_list self1 c))
            = Some (LineItem.mk s (LineItem.quantity x + q1))) as Hfind1.
    { unfold self1. rewrite customer_items_store_items, find_item_set_quantity.
      by rewrite bool_decide_eq_true_2, Hfind. }
    pose proof (update_list_add_present self s q1 c Hs Hcat Hq1 Hc x Hfind Hx)
      as H1.
    pose proof (update_list_add_present self1 s q2 c Hs Hcat Hq2 Hc _ Hfind1)
      as H2.
    pose proof (update_list_add_present self s (q1 + q2) c Hs Hcat) as H3.
    do 4 eexists. split; [exact H1|]. split; [apply H2; simpl; lia|].
    unfold self1.
    rewrite customer_items_store_items, customer_id_store_items.
    rewrite store_items_store_items, set_quantity_twice. simpl.
    split; [rewrite <-Z.add_assoc; apply H3; (done || lia)|].
    rewrite find_item_set_quantity, bool_decide_eq_true_2, Hfind by done.
    simpl. lia.
  - set (self1 := store_items c (l ++ [LineItem.mk s q1]) self).
    assert (find_item s (ShoppingList.items (customer_list self1 c))
            = Some (LineItem.mk s q1)) as Hfind1.
    { unfold self1. rewrite customer_items_store_items, find_item_app, Hfind.
      simpl. by rewrite Z.eqb_refl. }
    pose proof (update_list_add_absent self s q1 c Hs Hcat Hq1 Hc Hfind) as H1.
    pose proof (update_list_add_present self1 s q2 c Hs Hcat Hq2 Hc _ Hfind1)
      as H2.
    pose proof (update_list_add_absent self s (q1 + q2) c Hs Hcat) as H3.
    do 4 eexists. split; [exact H1|]. split; [apply H2; simpl; lia|].
    unfold self1.
    rewrite customer_items_store_items, customer_id_store_items.
    rewrite store_items_store_items. simpl.
    rewrite set_quantity_app_absent by done.
    split; [apply H3; (done || lia)|].
    rewrite find_item_app, Hfind. simpl. rewrite Z.eqb_refl. simpl. lia.
Qed.

(** Add 2 then add 3 of SKU 101 on a fresh client, against add 5. *)
Lemma add_cumulative_witness :
  reachable init ∧ is_Some (catalog_get 101 (catalog init))
  ∧ 0 ≤ 2 ∧ 0 ≤ 3 ∧ 0 ≤ 0
  ∧ ∃ sl1 self1 sl self',
      update_list (PInt 101) (PInt 2) (PInt 0) (PStr "add") init = (Ok sl1, self1)
      ∧ update_list (PInt 101) (PInt 3) (PInt 0) (PStr "add") self1 = (Ok sl, self')
      ∧ update_list (PInt 101) (PInt (2 + 3)) (PInt 0) (PStr "add") init
        = (Ok sl, self')
      ∧ quantity_of 101 (ShoppingList.items sl)
        = quantity_of 101 (ShoppingList.items (customer_list init 0)) + 2 + 3.
Proof.
  assert (is_Some (catalog_get 101 (catalog init))) as Hcat by (by eexists).
  split; [apply reachable_init|]. repeat (split; [done|]).
  apply (add_cumulative 101 2 3 0 init reachable_init Hcat); done.
Defined.

(** C5. On a reachable client, for a catalog SKU [s], a non-negative
    quantity [q] and a customer [c], [update_list] with operation [set]
    returns and stores a list [l'] such that: when [q > 0], the item
    for [s] holds exactly [q], rewritten in place if it was there and
    appended otherwise; when [q = 0], no item for [s] is left, the items
    of the other SKUs are kept in their order, the list is the one before
    when it had no item for [s], and repeating the call returns the same
    list and leaves the client exactly as it is. *)
Theorem set_spec (s q c : Z) (self : ShoppingListClient) :
  reachable self → is_Some (catalog_get s (catalog self)) → 0 ≤ q → 0 ≤ c →
  let l := ShoppingList.items (customer_list self c) in
  let set_ := update_list (PInt s) (PInt q) (PInt c) (PStr "set") in
  let l' :=
    if 0 <? q then
      match find_item s l with
      | Some _ => (λ i, if LineItem.sku i =? s then LineItem.mk s q else i) <$> l
      | None => l ++ [LineItem.mk s q]
      end
    else filter (λ i, LineItem.sku i ≠ s) l in
  let self' :=
    Client (<[c := ShoppingList.mk c l']> (shopping_lists self)) (catalog self) in
  set_ self = (Ok (ShoppingList.mk c l'), self')
  ∧ (0 < q → find_item s l' = Some (LineItem.mk s q))
  ∧ (q = 0 →
     find_item s l' = None
     ∧ (find_item s l = None → l' = l)
     ∧ set_ self' = (Ok (ShoppingList.mk c l'), self')).
Proof.
  intros Hinv%reachable_inv Hcat Hq Hc l set_ l' self'.
  pose proof (catalog_sku_positive s self Hinv Hcat) as Hs.
  destruct (customer_list_inv c self Hinv Hc) as [Hid _ Hnd _ _].
  fold l in Hnd.
  assert (self' = store_items c l' self) as Hself'
    by (by rewrite store_items_insert).
  assert (set_ self = (Ok (ShoppingList.mk c l'), self')) as Hset.
  { rewrite Hself'. subst set_ l'.
    destruct (Z.ltb_spec 0 q) as [Hpos|Hzero];
      destruct (find_item s l) as [x|] eqn:Hfind.
    - erewrite update_list_set_present by done.
      by rewrite Hid, set_quantity_map.
    - erewrite update_list_set_absent by done. by rewrite Hid.
    - erewrite update_list_set_zero_present by (done || lia).
      rewrite Hid. by erewrite list_remove_filter.
    - erewrite update_list_set_zero_absent by (done || lia).
      apply find_item_None in Hfind. rewrite filter_absent by done.
      unfold l. by rewrite store_items_same, <-customer_list_eta. }
  split; [done|]. split.
  - intros Hpos. subst l'. apply Z.ltb_lt in Hpos as ->.
    destruct (find_item s l) as [x|] eqn:Hfind.
    + by eapply find_item_rewrite.
    + rewrite find_item_app, Hfind. simpl. by rewrite Z.eqb_refl.
  - intros ->. subst l'. simpl.
    split; [apply find_item_filter|].
    split; [intros Hnone%find_item_None; by apply filter_absent|].
    subst set_. rewrite Hself' at 1.
    erewrite update_list_set_zero_absent; try done.
    + rewrite customer_list_store_items, bool_decide_eq_true_2, Hid by done.
      f_equal. rewrite Hself'. eapply touch_present, lookup_store_items.
    + rewrite customer_items_store_items. apply find_item_filter.
Qed.

(** The scenario of the specification: set 5 of SKU 102 for customer 7
    on a fresh client. *)
Lemma set_spec_witness :
  reachable init ∧ is_Some (catalog_get 102 (catalog init)) ∧ 0 ≤ 5 ∧ 0 ≤ 7
  ∧ update_list (PInt 102) (PInt 5) (PInt 7) (PStr "set") init
    = (Ok (ShoppingList.mk 7 [LineItem.mk 102 5]),
       Client (<[7 := ShoppingList.mk 7 [LineItem.mk 102 5]]> (shopping_lists init))
         (catalog init)).
Proof.
  assert (is_Some (catalog_get 102 (catalog init))) as Hcat
    by (apply seed_catalog_keys; lia).
  split; [apply reachable_init|]. repeat (split; [done|]).
  assert (0 ≤ 5) as Hq by done. assert (0 ≤ 7) as Hc by done.
  exact (proj1 (set_spec 102 5 7 init reachable_init Hcat Hq Hc)).
Defined.

(** ** The tool boundary *)

Lemma wp_try_except {A} (body : M A) (handler : exception → M A) Q E self :
  wp (try_except body handler) Q E self
  ↔ wp body Q (λ e, wp (handler e) Q E) self.
Proof. unfold wp, try_except. by destruct (body self) as [[a|e] self']. Qed.

(** Symbolic execution through the validators and the handlers of a
    tool: every [raise] is met with its class in view, so the handler
    that takes it is found by computation. *)
Ltac tool_step :=
  cbv beta;
  match goal with
  | |- wp (try_except _ _) _ _ _ => apply wp_try_except
  | |- wp (liftR (if ?b then _ else _)) _ _ _ => destruct b eqn:?
  | |- wp (liftR (raiseR _ _)) _ _ _ => apply wp_liftR; unfold raiseR
  | |- wp (liftR (Ok _)) _ _ _ => apply wp_liftR
  | |- wp (liftR (Raise _)) _ _ _ => apply wp_liftR
  | |- wp (set_price _ _) _ _ _ => unfold wp, set_price
  | |- wp (if issubclass _ _ then _ else _) _ _ _ => progress simpl
  | |- if ?b then _ else _ => destruct b eqn:?
  | _ => wp_step
  end.

(** [UpdateListTool.forward] always returns a dictionary, and an error
    dictionary always carries one of the three codes. *)
Lemma UpdateListTool_forward_codes sku quantity customer_id operation self :
  wp (UpdateListTool_forward sku quantity customer_id operation)
    (λ out _,
      match out with
      | ErrorOutput _ code => known_code code = true
      | _ => True
      end)
    (λ _ _, False) self.
Proof.
  unfold UpdateListTool_forward, UpdateListTool_checks, update_list,
    validate_quantity, validate_operation, validate_sku.
  repeat tool_step; done.
Qed.

Lemma validate_customer_id_Raise int_of_str v e :
  validate_customer_id int_of_str v = Raise e →
  issubclass (exc_cls e) ValueError = false.
Proof.
  unfold validate_customer_id.
  destruct (py_int int_of_str v) as [z|e0]; simpl.
  - destruct (z <? 0); simpl; [by intros [= <-] | done].
  - destruct (issubclass (exc_cls e0) ValueError) eqn:Hcls; simpl.
    + by intros [= <-].
    + by intros [= <-].
Qed.

Lemma validate_customer_id_Ok int_of_str v :
  validate_customer_id int_of_str v = Ok tt →
  ∃ z, py_int int_of_str v = Ok z ∧ 0 ≤ z.
Proof.
  unfold validate_customer_id.
  destruct (py_int int_of_str v) as [z|e0]; simpl.
  - destruct (Z.ltb_spec z 0); simpl; [done|]. by exists z.
  - by destruct (issubclass (exc_cls e0) ValueError).
Qed.

(** The two read tools never let an exception escape either: the
    [ValueError] clause of [GetShoppingListTool.forward], the only one
    that raises, is never entered. *)
Lemma read_tools_return int_of_str str_lower str_strip self :
  (∀ customer_id,
     wp (GetShoppingListTool_forward int_of_str customer_id)
       (λ _ _, True) (λ _ _, False) self)
  ∧ (∀ sku item_name,
     wp (GetItemDetailsTool_forward int_of_str str_lower str_strip sku item_name)
       (λ _ _, True) (λ _ _, False) self).
Proof.
  split.
  - intros customer_id. unfold GetShoppingListTool_forward.
    do 3 tool_step.
    + apply validate_customer_id_Ok in Heqr as (z & -> & Hz).
      repeat (tool_step; simpl); done.
    + apply validate_customer_id_Raise in Heqr as ->.
      repeat (tool_step; simpl); done.
  - intros sku item_name.
    unfold GetItemDetailsTool_forward, get_item_info, validate_sku, py_int.
    repeat (tool_step; simpl); try done.
    all: destruct sku; simpl in *; try done.
    all: repeat (tool_step; simpl); try done.
    all: destruct (py_float _); repeat (tool_step; simpl); done.
Qed.

(** C9. The failing inputs of the two read tools.  Each returns an error
    dictionary, but not one with a machine-readable code:
    [GetShoppingListTool.forward(-1)] puts [None] under [error_code], as
    does [GetItemDetailsTool.forward(999)] on a fresh client, and
    [GetShoppingListTool.forward(None)], whose [TypeError] is
    unclassified, returns a dictionary without the key.
    [UpdateListTool.forward] on the other hand answers the same invalid
    quantity with [VALIDATION_ERROR]. *)
Theorem read_tools_error_code (int_of_str : string → option Z)
    (str_lower str_strip : string → string) (self : ShoppingListClient) :
  GetShoppingListTool_forward int_of_str (PInt (-1)) self
  = (Ok (ErrorOutput "Customer ID must be a positive integer" (Some PNone)), self)
  ∧ GetShoppingListTool_forward int_of_str PNone self
    = (Ok (ErrorOutput "An unexpected error occurred" None), self)
  ∧ GetItemDetailsTool_forward int_of_str str_lower str_strip (PInt 999) PNone init
    = (Ok (ErrorOutput "Item with SKU 999 not found" (Some PNone)), init)
  ∧ known_code (Some PNone) = false
  ∧ known_code None = false
  ∧ UpdateListTool_forward (PInt 101) (PInt (-1)) (PInt 0) (PStr "add") self
    = (Ok (ErrorOutput "Quantity cannot be negative"
             (Some (PStr "VALIDATION_ERROR"))), self).
Proof. repeat split. Qed.

(** ** Zero quantities *)

Lemma positive_touch c self :
  positive_quantities self → positive_quantities (touch c self).
Proof.
  intros Hpos c' sl. destruct (decide (c = c')) as [<-|Hne].
  - rewrite lookup_touch. intros [= <-]. unfold customer_list.
    destruct (shopping_lists self !! c) as [sl|] eqn:Hsl; simpl; [|done].
    by eapply Hpos.
  - rewrite lookup_touch_ne by done. apply Hpos.
Qed.

Lemma positive_store_items c l self :
  positive_quantities self → Forall (λ i, 0 < LineItem.quantity i) l →
  positive_quantities (store_items c l self).
Proof.
  intros Hpos Hl c' sl. destruct (decide (c = c')) as [<-|Hne].
  - rewrite lookup_store_items. by intros [= <-].
  - rewrite lookup_store_items_ne by done. apply Hpos.
Qed.

(** The [remove] and [set] policies, and [add] to an item that is there
    or with a positive quantity, keep every stored quantity positive:
    only [add] of quantity 0 for a SKU the list lacks stores a zero. *)
Lemma update_list_positive sku quantity customer_id operation self :
  positive_quantities self →
  ¬ (eq_str operation "add" = true ∧ int_value quantity = 0
     ∧ find_item (int_value sku)
         (ShoppingList.items (customer_list self (int_value customer_id))) = None) →
  wp (update_list sku quantity customer_id operation)
    (λ _, positive_quantities) (λ _, positive_quantities) self.
Proof.
  intros Hpos Hzero. unfold update_list.
  repeat wp_step; try done; checked.
  all: try by apply positive_touch.
  all: apply positive_store_items; [done|].
  all: assert (Forall (λ i, 0 < LineItem.quantity i)
         (ShoppingList.items (customer_list self (int_value customer_id))))
    as Hl by (apply (positive_touch (int_value customer_id)) in Hpos;
              eapply Hpos, lookup_touch).
  all: try (apply list_remove_Forall; done).
  all: try (apply set_quantity_Forall; [simpl|done]).
  all: try (apply Forall_app; split; [done|]; apply Forall_singleton; simpl).
  all: try lia.
  - match goal with H : find_item _ _ = Some ?x |- _ =>
      apply find_item_Some in H as [Hin _];
      pose proof (proj1 (Forall_forall _ _) Hl x Hin) end.
    simpl in *. lia.
  - destruct (decide (int_value quantity = 0)); [|lia]. by destruct Hzero.
Qed.

(** C2. The failing input: on a fresh client,
    [update_list(sku=101, quantity=0, customer_id=0, operation="add")]
    returns, and the client it leaves, a reachable one, stores the line
    item [{sku: 101, quantity: 0}] in the list of customer 0. *)
Theorem add_zero_is_stored :
  let self := run (UpdateList (PInt 101) (PInt 0) (PInt 0) (PStr "add")) init in
  reachable self
  ∧ update_list (PInt 101) (PInt 0) (PInt 0) (PStr "add") init
    = (Ok (ShoppingList.mk 0 [LineItem.mk 101 0]), self)
  ∧ shopping_lists self !! 0 = Some (ShoppingList.mk 0 [LineItem.mk 101 0])
  ∧ ¬ positive_quantities self.
Proof.
  intros self. split; [apply reachable_run, reachable_init|].
  split; [by vm_compute|]. split; [by vm_compute|].
  intros Hpos. specialize (Hpos 0 _ eq_refl).
  apply Forall_cons in Hpos as [Hpos _]. simpl in Hpos. lia.
Qed.

(** ** Removal at the tool boundary *)

Lemma item_exists_find s x l :
  find_item s l = Some x → item_exists (PInt s) l = true.
Proof.
  unfold item_exists, eq_int.
  induction l as [|y l IH]; simpl; [done|].
  destruct (LineItem.sku y =? s); [done|]. apply IH.
Qed.

(** C10, as stated, fails for a negative quantity: with SKU 101 in the
    list of customer 0, [UpdateListTool.forward(101, -1, 0, "remove")]
    returns a [VALIDATION_ERROR] whose message is the quantity
    validator's, not the one of the removal check. *)
Lemma tool_remove_negative_message :
  let self := run (UpdateList (PInt 101) (PInt 2) (PInt 0) (PStr "add")) init in
  item_exists (PInt 101) (ShoppingList.items (customer_list self 0)) = true
  ∧ -1 ≤ 0
  ∧ UpdateListTool_forward (PInt 101) (PInt (-1)) (PInt 0) (PStr "remove") self
    = (Ok (ErrorOutput "Quantity cannot be negative"
             (Some (PStr "VALIDATION_ERROR"))), self)
  ∧ UpdateListTool_forward (PInt 101) (PInt (-1)) (PInt 0) (PStr "remove") self
    ≠ (Ok (ErrorOutput "Quantity must be positive for removal"
             (Some (PStr "VALIDATION_ERROR"))), self).
Proof.
  split; [by vm_compute|]. split; [lia|]. split; [by vm_compute|].
  by vm_compute.
Qed.

(** C10, amended.  On a reachable client where the list of customer [c]
    has an item [x] for SKU [s], [UpdateListTool.forward] with operation
    [remove] and a quantity [q ≤ 0] returns a [VALIDATION_ERROR] result
    and leaves the client as it is, its checks raising before the store
    update is called; the message is that of the removal check when
    [q = 0] and that of the quantity validator when [q < 0].  The store's
    own [update_list] accepts the removal of quantity 0: it returns and
    leaves the client unchanged when [x] has a positive quantity, and
    removes [x] from the list when its quantity is 0. *)
Theorem tool_remove_nonpositive (s q c : Z) (x : line_item)
    (self : ShoppingListClient) :
  reachable self → 0 ≤ c → q ≤ 0 →
  find_item s (ShoppingList.items (customer_list self c)) = Some x →
  let l := ShoppingList.items (customer_list self c) in
  UpdateListTool_forward (PInt s) (PInt q) (PInt c) (PStr "remove") self
  = (Ok (ErrorOutput
           (if q <? 0 then "Quantity cannot be negative"
            else "Quantity must be positive for removal")
           (Some (PStr "VALIDATION_ERROR"))), self)
  ∧ (∃ e, UpdateListTool_checks (PInt s) (PInt q) (PInt c) (PStr "remove") self
          = (Raise e, self))
  ∧ update_list (PInt s) (PInt 0) (PInt c) (PStr "remove") self
    = if 0 <? LineItem.quantity x then (Ok (ShoppingList.mk c l), self)
      else
        (Ok (ShoppingList.mk c (filter (λ i, LineItem.sku i ≠ s) l)),
         Client (<[c := ShoppingList.mk c (filter (λ i, LineItem.sku i ≠ s) l)]>
                   (shopping_lists self)) (catalog self)).
Proof.
  intros Hinv%reachable_inv Hc Hq Hfind l.
  destruct (customer_list_inv c self Hinv Hc) as [Hid _ Hnd Hqs Hcats].
  fold l in Hnd, Hqs, Hcats.
  pose proof (find_item_Some _ _ _ Hfind) as [Hin Hsku].
  assert (touch c self = self) as Htouch.
  { unfold customer_list in *.
    destruct (shopping_lists self !! c) as [sl|] eqn:Hsl; [|done].
    by eapply touch_present. }
  assert (UpdateListTool_checks (PInt s) (PInt q) (PInt c) (PStr "remove") self
          = (Raise (Exc (if q <? 0 then InvalidQuantityError else ValidationError)
                      (if q <? 0 then "Quantity cannot be negative"
                       else "Quantity must be positive for removal") None),
             self)) as Hchecks.
  { unfold UpdateListTool_checks, validate_quantity. simpl.
    destruct (Z.ltb_spec q 0) as [Hneg|Hzero]; [done|].
    unfold mbind, M_bind, liftR at 1 2. simpl.
    rewrite get_shopping_list_valid by done. simpl.
    rewrite (item_exists_find _ _ _ Hfind), Htouch. simpl.
    by apply Z.leb_le in Hq as ->. }
  split; [|split].
  - unfold UpdateListTool_forward, try_except, mbind, M_bind at 1.
    rewrite Hchecks. by destruct (q <? 0).
  - eexists. apply Hchecks.
  - assert (is_Some (catalog_get s (catalog self))) as Hcat.
    { rewrite (inv_seed _ Hinv), <-Hsku.
      by apply (proj1 (Forall_forall _ _) Hcats). }
    pose proof (catalog_sku_positive s self Hinv Hcat) as Hs.
    pose proof (proj1 (Forall_forall _ _) Hqs x Hin) as Hx. simpl in Hx.
    destruct (Z.ltb_spec 0 (LineItem.quantity x)) as [Hpos|Hzero].
    + erewrite update_list_remove_part by done.
      rewrite Z.sub_0_r, set_quantity_same, store_items_same, Htouch, Hid by done.
      done.
    + erewrite update_list_remove_all by (done || lia).
      erewrite list_remove_filter, Hid by done.
      by rewrite store_items_insert.
Qed.

(** Removing 0 of SKU 101 through the tool, with 2 of it in the list. *)
Lemma tool_remove_nonpositive_witness :
  let self := run (UpdateList (PInt 101) (PInt 2) (PInt 0) (PStr "add")) init in
  reachable self ∧ 0 ≤ 0 ∧ 0 ≤ 0
  ∧ find_item 101 (ShoppingList.items (customer_list self 0))
    = Some (LineItem.mk 101 2)
  ∧ UpdateListTool_forward (PInt 101) (PInt 0) (PInt 0) (PStr "remove") self
    = (Ok (ErrorOutput "Quantity must be positive for removal"
             (Some (PStr "VALIDATION_ERROR"))), self).
Proof.
  intros self.
  assert (reachable self) as Hreach by apply reachable_run, reachable_init.
  assert (0 ≤ 0) as H0 by done.
  assert (find_item 101 (ShoppingList.items (customer_list self 0))
          = Some (LineItem.mk 101 2)) as Hfind by (by vm_compute).
  repeat (split; [done|]).
  exact (proj1 (tool_remove_nonpositive 101 0 0 _ self Hreach H0 H0 Hfind)).
Defined.

(** * Further properties of the client *)

Lemma find_item_list_remove_ne s' x l :
  LineItem.sku x ≠ s' → find_item s' (list_remove x l) = find_item s' l.
Proof.
  intros Hne. induction l as [|y l IH]; simpl; [done|].
  case_bool_decide as Hy; simpl.
  - subst y. by apply Z.eqb_neq in Hne as ->.
  - by rewrite IH.
Qed.

Lemma find_item_app_ne s s' q l :
  s' ≠ s → find_item s' (l ++ [LineItem.mk s q]) = find_item s' l.
Proof.
  intros Hne. rewrite find_item_app. destruct (find_item s' l); [done|].
  simpl. by apply not_eq_sym, Z.eqb_neq in Hne as ->.
Qed.

Lemma list_remove_set_quantity s q x l :
  find_item s l = Some x →
  list_remove (LineItem.mk s q) (set_quantity s q l) = list_remove x l.
Proof.
  induction l as [|y l IH]; simpl; [done|].
  destruct (Z.eqb_spec (LineItem.sku y) s) as [Heq|Hne].
  - intros [= <-]. rewrite Heq. simpl. by rewrite !bool_decide_eq_true_2.
  - intros Hfind. simpl. rewrite !bool_decide_eq_false_2.
    + by rewrite IH.
    + intros ->. by apply find_item_Some in Hfind as [_ ?].
    + by intros ->.
Qed.

Lemma list_remove_app_absent s q l :
  find_item s l = None → list_remove (LineItem.mk s q) (l ++ [LineItem.mk s q]) = l.
Proof.
  induction l as [|y l IH]; simpl.
  - intros _. by rewrite bool_decide_eq_true_2.
  - destruct (Z.eqb_spec (LineItem.sku y) s) as [Heq|Hne]; [done|].
    intros Hfind. rewrite bool_decide_eq_false_2 by (by intros ->).
    by rewrite IH.
Qed.

Lemma filter_skus s l :
  LineItem.sku <$> filter (λ i, LineItem.sku i ≠ s) l
  = filter (λ k, k ≠ s) (LineItem.sku <$> l).
Proof.
  induction l as [|y l IH]; csimpl; [done|].
  destruct (decide (LineItem.sku y = s)) as [Heq|Hne].
  - by rewrite !filter_cons_False by (by intros []).
  - rewrite !filter_cons_True by done. csimpl. by rewrite IH.
Qed.

Lemma customer_list_destruct c self :
  customer_list self c
  = ShoppingList.mk (ShoppingList.list_id (customer_list self c))
      (ShoppingList.items (customer_list self c)).
Proof. by destruct (customer_list self c). Qed.

(** X1. The data model holds of every reachable client: the catalog is
    the seed catalog, and a stored list carries the id of its customer,
    a non-negative one, holds each SKU once, and holds only catalog SKUs
    with non-negative quantities. *)
Theorem reachable_data_model (self : ShoppingListClient) (c : Z)
    (sl : shopping_list) :
  reachable self → shopping_lists self !! c = Some sl →
  catalog self = seed_catalog
  ∧ ShoppingList.list_id sl = c ∧ 0 ≤ c
  ∧ NoDup (LineItem.sku <$> ShoppingList.items sl)
  ∧ ∀ item, item ∈ ShoppingList.items sl →
      0 ≤ LineItem.quantity item
      ∧ is_Some (catalog_get (LineItem.sku item) (catalog self)).
Proof.
  intros Hinv%reachable_inv Hsl.
  destruct (inv_lists _ Hinv c sl Hsl) as [Hid Hc Hnd Hq Hcat].
  rewrite (inv_seed _ Hinv). repeat split; try done.
  - by apply (proj1 (Forall_forall _ _) Hq).
  - by apply (proj1 (Forall_forall _ _) Hcat).
Qed.

(** After adding 2 of SKU 101 for customer 0 on a fresh client. *)
Lemma reachable_data_model_witness :
  let self := run (UpdateList (PInt 101) (PInt 2) (PInt 0) (PStr "add")) init in
  reachable self
  ∧ shopping_lists self !! 0 = Some (ShoppingList.mk 0 [LineItem.mk 101 2])
  ∧ NoDup (LineItem.sku <$> [LineItem.mk 101 2]).
Proof.
  intros self.
  assert (reachable self) as Hreach by apply reachable_run, reachable_init.
  assert (shopping_lists self !! 0 = Some (ShoppingList.mk 0 [LineItem.mk 101 2]))
    as Hsl by (by vm_compute).
  split; [done|]. split; [done|].
  apply (reachable_data_model self 0 _ Hreach Hsl).
Defined.

(** X2. [update_list] never touches the item of another SKU: whatever the
    arguments and the client, and whether the call returns or raises,
    every customer's list holds afterwards, for each SKU other than the
    one passed, the item it held before. *)
Theorem update_list_other_skus (sku quantity customer_id operation : pyval)
    (s' : Z) (self : ShoppingListClient) :
  s' ≠ int_value sku →
  let self' := (update_list sku quantity customer_id operation self).2 in
  ∀ c, find_item s' (ShoppingList.items (customer_list self' c))
       = find_item s' (ShoppingList.items (customer_list self c)).
Proof.
  intros Hne self' c. subst self'.
  assert (wp (update_list sku quantity customer_id operation)
            (λ _ self', find_item s' (ShoppingList.items (customer_list self' c))
               = find_item s' (ShoppingList.items (customer_list self c)))
            (λ _ self', find_item s' (ShoppingList.items (customer_list self' c))
               = find_item s' (ShoppingList.items (customer_list self c)))
            self) as Hwp.
  { unfold update_list. repeat wp_step; try done.
    all: rewrite ?customer_list_touch; try done.
    all: rewrite customer_list_store_items;
      (destruct (decide (int_value customer_id = c)) as [<-|?];
       [rewrite bool_decide_eq_true_2 by done
       |by rewrite bool_decide_eq_false_2 by done]).
    all: cbn [ShoppingList.items].
    all: rewrite ?find_item_app_ne, ?find_item_set_quantity by done.
    all: rewrite ?bool_decide_eq_false_2 by done; try done.
    all: apply find_item_list_remove_ne.
    all: match goal with H : find_item _ _ = Some _ |- _ =>
           apply find_item_Some in H as [_ ->] end; by apply not_eq_sym. }
  unfold wp in Hwp.
  by destruct (update_list _ _ _ _ self) as [[sl|e] self'].
Qed.

(** With 2 of SKU 101 and 5 of SKU 102 in the list, setting SKU 101 to 0
    leaves the item of SKU 102. *)
Lemma update_list_other_skus_witness :
  let self :=
    run (UpdateList (PInt 102) (PInt 5) (PInt 0) (PStr "add"))
      (run (UpdateList (PInt 101) (PInt 2) (PInt 0) (PStr "add")) init) in
  102 ≠ int_value (PInt 101)
  ∧ find_item 102
      (ShoppingList.items
         (customer_list
            (update_list (PInt 101) (PInt 0) (PInt 0) (PStr "set") self).2 0))
    = find_item 102 (ShoppingList.items (customer_list self 0)).
Proof.
  intros self. split; [done|].
  apply (update_list_other_skus (PInt 101) (PInt 0) (PInt 0) (PStr "set") 102 self).
  done.
Defined.

(** X3. [update_list] never reorders a list: on a reachable client the
    sequence of SKUs of the customer's list is afterwards the one before,
    or the one before with the SKU appended when it was absent, or the
    one before without the SKU when it was present. *)
Theorem update_list_keeps_order (sku quantity customer_id operation : pyval)
    (self : ShoppingListClient) :
  reachable self →
  let c := int_value customer_id in
  let s := int_value sku in
  let before := LineItem.sku <$> ShoppingList.items (customer_list self c) in
  let after :=
    LineItem.sku <$> ShoppingList.items
      (customer_list (update_list sku quantity customer_id operation self).2 c) in
  after = before
  ∨ ((s ∉ before) ∧ after = before ++ [s])
  ∨ ((s ∈ before) ∧ after = filter (λ k, k ≠ s) before).
Proof.
  intros Hinv%reachable_inv c s before after. subst after before s c.
  assert (wp (update_list sku quantity customer_id operation)
    (λ _ self',
      let before :=
        LineItem.sku <$> ShoppingList.items (customer_list self (int_value customer_id)) in
      let after :=
        LineItem.sku <$> ShoppingList.items (customer_list self' (int_value customer_id)) in
      after = before
      ∨ ((int_value sku ∉ before) ∧ after = before ++ [int_value sku])
      ∨ ((int_value sku ∈ before) ∧ after = filter (λ k, k ≠ int_value sku) before))
    (λ _ self',
      LineItem.sku <$> ShoppingList.items (customer_list self' (int_value customer_id))
      = LineItem.sku <$> ShoppingList.items (customer_list self (int_value customer_id)))
    self) as Hwp.
  { unfold update_list. repeat wp_step; try done; checked.
    all: rewrite ?customer_list_touch; try done.
    all: cbv zeta; rewrite ?customer_items_store_items.
    all: rewrite ?set_quantity_skus; try (by left).
    all: try (right; left; split; [by apply find_item_None|];
              by rewrite fmap_app).
    all: right; right.
    all: pose proof (customer_list_inv _ self Hinv ltac:(eassumption))
           as [_ _ Hnd _ _].
    all: match goal with H : find_item _ _ = Some _ |- _ =>
           erewrite (list_remove_filter _ _ _ Hnd H);
           apply find_item_Some in H as [Hin Hsku] end.
    all: split; [|apply filter_skus].
    all: rewrite <-Hsku; by apply list_elem_of_fmap_2. }
  unfold wp in Hwp.
  destruct (update_list _ _ _ _ self) as [[sl|e] self']; simpl; [done|].
  by left.
Qed.

(** Adding SKU 102 to a list that holds SKU 101. *)
Lemma update_list_keeps_order_witness :
  let self := run (UpdateList (PInt 101) (PInt 2) (PInt 0) (PStr "add")) init in
  let before := LineItem.sku <$> ShoppingList.items (customer_list self 0) in
  let after :=
    LineItem.sku <$> ShoppingList.items
      (customer_list (update_list (PInt 102) (PInt 1) (PInt 0) (PStr "add") self).2 0) in
  reachable self
  ∧ (after = before
     ∨ ((102 ∉ before) ∧ after = before ++ [102])
     ∨ ((102 ∈ before) ∧ after = filter (λ k, k ≠ 102) before)).
Proof.
  intros self before after.
  assert (reachable self) as Hreach by apply reachable_run, reachable_init.
  split; [done|].
  apply (update_list_keeps_order (PInt 102) (PInt 1) (PInt 0) (PStr "add")
           self Hreach).
Defined.

(** X4. Setting overwrites: on a reachable client, for a catalog SKU,
    setting a positive quantity [q1] and then any quantity [q2] returns
    the same list and leaves the same client as setting [q2] at once. *)
Theorem set_overwrites (s q1 q2 c : Z) (self : ShoppingListClient) :
  reachable self → is_Some (catalog_get s (catalog self)) →
  0 < q1 → 0 ≤ q2 → 0 ≤ c →
  let set_ q := update_list (PInt s) (PInt q) (PInt c) (PStr "set") in
  ∃ sl1 self1 sl self',
    set_ q1 self = (Ok sl1, self1)
    ∧ set_ q2 self1 = (Ok sl, self')
    ∧ set_ q2 self = (Ok sl, self').
Proof.
  intros Hinv%reachable_inv Hcat Hq1 Hq2 Hc set_. subst set_.
  pose proof (catalog_sku_positive s self Hinv Hcat) as Hs.
  assert (0 ≤ q1) as Hq1' by lia.
  set (l := ShoppingList.items (customer_list self c)).
  destruct (find_item s l) as [x|] eqn:Hfind.
  - set (self1 := store_items c (set_quantity s q1 l) self).
    assert (find_item s (ShoppingList.items (customer_list self1 c))
            = Some (LineItem.mk s q1)) as Hfind1.
    { unfold self1. rewrite customer_items_store_items, find_item_set_quantity.
      by rewrite bool_decide_eq_true_2, Hfind. }
    pose proof (update_list_set_present self s q1 c Hs Hcat Hq1' Hc x Hfind Hq1)
      as H1.
    destruct (decide (q2 = 0)) as [->|Hpos]; do 4 eexists; (split; [exact H1|]).
    + split.
      * by apply (update_list_set_zero_present self1 s 0 c Hs Hcat Hq2 Hc _ Hfind1).
      * erewrite update_list_set_zero_present by done. unfold self1.
        rewrite customer_items_store_items, customer_id_store_items.
        rewrite store_items_store_items.
        by erewrite list_remove_set_quantity.
    + split.
      * apply (update_list_set_present self1 s q2 c Hs Hcat Hq2 Hc _ Hfind1). lia.
      * erewrite update_list_set_present by (done || lia). unfold self1.
        rewrite customer_items_store_items, customer_id_store_items.
        by rewrite store_items_store_items, set_quantity_twice.
  - set (self1 := store_items c (l ++ [LineItem.mk s q1]) self).
    assert (find_item s (ShoppingList.items (customer_list self1 c))
            = Some (LineItem.mk s q1)) as Hfind1.
    { unfold self1. rewrite customer_items_store_items, find_item_app, Hfind.
      simpl. by rewrite Z.eqb_refl. }
    pose proof (update_list_set_absent self s q1 c Hs Hcat Hq1' Hc Hfind Hq1)
      as H1.
    destruct (decide (q2 = 0)) as [->|Hpos]; do 4 eexists; (split; [exact H1|]).
    + split.
      * by apply (update_list_set_zero_present self1 s 0 c Hs Hcat Hq2 Hc _ Hfind1).
      * erewrite update_list_set_zero_absent by done. unfold self1.
        rewrite customer_items_store_items, customer_id_store_items.
        rewrite store_items_store_items, list_remove_app_absent by done.
        unfold l. by rewrite store_items_same, <-customer_list_destruct.
    + split.
      * apply (update_list_set_present self1 s q2 c Hs Hcat Hq2 Hc _ Hfind1). lia.
      * erewrite update_list_set_absent by (done || lia). unfold self1.
        rewrite customer_items_store_items, customer_id_store_items.
        by rewrite store_items_store_items, set_quantity_app_absent.
Qed.

(** Set 4 then set 0 of SKU 103 for customer 1, against set 0. *)
Lemma set_overwrites_witness :
  reachable init ∧ is_Some (catalog_get 103 (catalog init))
  ∧ 0 < 4 ∧ 0 ≤ 0 ∧ 0 ≤ 1
  ∧ ∃ sl1 self1 sl self',
      update_list (PInt 103) (PInt 4) (PInt 1) (PStr "set") init = (Ok sl1, self1)
      ∧ update_list (PInt 103) (PInt 0) (PInt 1) (PStr "set") self1 = (Ok sl, self')
      ∧ update_list (PInt 103) (PInt 0) (PInt 1) (PStr "set") init = (Ok sl, self').
Proof.
  assert (is_Some (catalog_get 103 (catalog init))) as Hcat
    by (apply seed_catalog_keys; lia).
  split; [apply reachable_init|]. repeat (split; [done|]).
  apply (set_overwrites 103 4 0 1 init reachable_init Hcat); done.
Defined.

(** X5. Adding and then removing the same quantity is a round trip: on a
    reachable client, for a catalog SKU that the customer's list lacks or
    holds with a positive quantity, [add q] followed by [remove q] both
    return, the second returning the customer's list as it was, and every
    customer's list reads as before. *)
Theorem add_remove_round_trip (s q c : Z) (self : ShoppingListClient) :
  reachable self → is_Some (catalog_get s (catalog self)) → 0 ≤ q → 0 ≤ c →
  (∀ x, find_item s (ShoppingList.items (customer_list self c)) = Some x →
        0 < LineItem.quantity x) →
  ∃ sl1 self1 self2,
    update_list (PInt s) (PInt q) (PInt c) (PStr "add") self = (Ok sl1, self1)
    ∧ update_list (PInt s) (PInt q) (PInt c) (PStr "remove") self1
      = (Ok (customer_list self c), self2)
    ∧ ∀ c', customer_list self2 c' = customer_list self c'.
Proof.
  intros Hinv%reachable_inv Hcat Hq Hc Hpositive.
  pose proof (catalog_sku_positive s self Hinv Hcat) as Hs.
  set (l := ShoppingList.items (customer_list self c)).
  destruct (find_item s l) as [x|] eqn:Hfind.
  - specialize (Hpositive x Hfind).
    set (self1 := store_items c (set_quantity s (LineItem.quantity x + q) l) self).
    assert (find_item s (ShoppingList.items (customer_list self1 c))
            = Some (LineItem.mk s (LineItem.quantity x + q))) as Hfind1.
    { unfold self1. rewrite customer_items_store_items, find_item_set_quantity.
      by rewrite bool_decide_eq_true_2, Hfind. }
    do 3 eexists. split.
    { apply (update_list_add_present self s q c Hs Hcat Hq Hc x Hfind). lia. }
    erewrite update_list_remove_part by (done || simpl; lia).
    unfold self1. rewrite customer_items_store_items, customer_id_store_items.
    rewrite store_items_store_items, set_quantity_twice. simpl.
    replace (LineItem.quantity x + q - q) with (LineItem.quantity x) by lia.
    rewrite set_quantity_same by done. unfold l.
    rewrite store_items_same, <-customer_list_destruct.
    split; [done|]. intros c'. apply customer_list_touch.
  - set (self1 := store_items c (l ++ [LineItem.mk s q]) self).
    assert (find_item s (ShoppingList.items (customer_list self1 c))
            = Some (LineItem.mk s q)) as Hfind1.
    { unfold self1. rewrite customer_items_store_items, find_item_app, Hfind.
      simpl. by rewrite Z.eqb_refl. }
    do 3 eexists. split.
    { by apply (update_list_add_absent self s q c Hs Hcat Hq Hc). }
    erewrite update_list_remove_all by done.
    unfold self1. rewrite customer_items_store_items, customer_id_store_items.
    rewrite store_items_store_items, list_remove_app_absent by done. unfold l.
    rewrite store_items_same, <-customer_list_destruct.
    split; [done|]. intros c'. apply customer_list_touch.
Qed.

(** Add 3 then remove 3 of SKU 104 on a fresh client. *)
Lemma add_remove_round_trip_witness :
  reachable init ∧ is_Some (catalog_get 104 (catalog init)) ∧ 0 ≤ 3 ∧ 0 ≤ 0
  ∧ (∀ x, find_item 104 (ShoppingList.items (customer_list init 0)) = Some x →
          0 < LineItem.quantity x)
  ∧ ∃ sl1 self1 self2,
      update_list (PInt 104) (PInt 3) (PInt 0) (PStr "add") init = (Ok sl1, self1)
      ∧ update_list (PInt 104) (PInt 3) (PInt 0) (PStr "remove") self1
        = (Ok (customer_list init 0), self2)
      ∧ ∀ c', customer_list self2 c' = customer_list init c'.
Proof.
  assert (is_Some (catalog_get 104 (catalog init))) as Hcat
    by (apply seed_catalog_keys; lia).
  assert (∀ x, find_item 104 (ShoppingList.items (customer_list init 0)) = Some x →
               0 < LineItem.quantity x) as Hpos by done.
  split; [apply reachable_init|]. repeat (split; [done|]).
  apply (add_remove_round_trip 104 3 0 init reachable_init Hcat); done.
Defined.

Lemma touch_holding s x c self :
  find_item s (ShoppingList.items (customer_list self c)) = Some x →
  touch c self = self.
Proof.
  unfold customer_list.
  destruct (shopping_lists self !! c) as [sl|] eqn:Hsl; [|done].
  intros _. by eapply touch_present.
Qed.

(** X6. The only failed call of [update_list] that leaves a trace is a
    removal for a customer who had no list: whatever the arguments and
    the client, when [update_list] raises and the client is not exactly
    the one before, the operation is [remove], the error is the
    [ItemNotFoundError] of the removal, and the client is the one before
    with the empty list recorded for the customer.  Every other failure
    (invalid SKU, quantity, operation or customer, SKU outside the
    catalog, removal of more than the list holds) changes nothing. *)
Theorem failed_update_trace (sku quantity customer_id operation : pyval)
    (self self' : ShoppingListClient) (e : exception) :
  update_list sku quantity customer_id operation self = (Raise e, self') →
  self' ≠ self →
  eq_str operation "remove" = true
  ∧ e = Exc ItemNotFoundError
          ("Cannot remove - item with SKU " +:+ py_str sku +:+ " not found in list")
          None
  ∧ shopping_lists self !! int_value customer_id = None
  ∧ self' = Client (<[int_value customer_id :=
                       ShoppingList.mk (int_value customer_id) []]>
                      (shopping_lists self)) (catalog self).
Proof.
  intros Hrun Hchanged.
  assert (wp (update_list sku quantity customer_id operation)
    (λ _ _, True)
    (λ e self', self' ≠ self →
      eq_str operation "remove" = true
      ∧ e = Exc ItemNotFoundError
              ("Cannot remove - item with SKU " +:+ py_str sku
               +:+ " not found in list") None
      ∧ shopping_lists self !! int_value customer_id = None
      ∧ self' = Client (<[int_value customer_id :=
                           ShoppingList.mk (int_value customer_id) []]>
                          (shopping_lists self)) (catalog self))
    self) as Hwp.
  { unfold update_list. repeat wp_step; try done.
    all: intros Hne.
    all: destruct (touch_cases (int_value customer_id) self) as [Hsame|[Hnone Hnew]];
      [by rewrite Hsame in Hne|].
    all: unfold customer_list in *; rewrite Hnone in *; simpl in *; done. }
  unfold wp in Hwp. rewrite Hrun in Hwp. by apply Hwp.
Qed.

(** Removing SKU 101 on a fresh client. *)
Lemma failed_update_trace_witness :
  let self' := Client (<[0 := ShoppingList.mk 0 []]> ∅) seed_catalog in
  let e := Exc ItemNotFoundError
             "Cannot remove - item with SKU 101 not found in list" None in
  update_list (PInt 101) (PInt 1) (PInt 0) (PStr "remove") init = (Raise e, self')
  ∧ self' ≠ init
  ∧ shopping_lists init !! 0 = None.
Proof.
  intros self' e.
  assert (update_list (PInt 101) (PInt 1) (PInt 0) (PStr "remove") init
          = (Raise e, self')) as Hrun by (by vm_compute).
  assert (self' ≠ init) as Hne by (by vm_compute).
  repeat (split; [done|]).
  apply (failed_update_trace _ _ _ _ _ _ _ Hrun Hne).
Defined.

(** X7. Zero quantities have one origin: on any client whose stored
    quantities are all positive, a call of [update_list], returning or
    raising, leaves them all positive unless it is an [add] of quantity 0
    for a SKU the customer's list lacks. *)
Theorem quantities_stay_positive (sku quantity customer_id operation : pyval)
    (self : ShoppingListClient) :
  positive_quantities self →
  ¬ (eq_str operation "add" = true ∧ int_value quantity = 0
     ∧ find_item (int_value sku)
         (ShoppingList.items (customer_list self (int_value customer_id))) = None) →
  positive_quantities (update_list sku quantity customer_id operation self).2.
Proof.
  intros Hpos Hzero.
  pose proof (update_list_positive sku quantity customer_id operation self
                Hpos Hzero) as Hwp.
  unfold wp in Hwp.
  by destruct (update_list _ _ _ _ self) as [[sl|e] self'].
Qed.

(** Removing 2 of the 2 apples of customer 0. *)
Lemma quantities_stay_positive_witness :
  let self := store_items 0 [LineItem.mk 101 2] init in
  positive_quantities self
  ∧ ¬ (eq_str (PStr "remove") "add" = true ∧ int_value (PInt 2) = 0
       ∧ find_item (int_value (PInt 101))
           (ShoppingList.items (customer_list self (int_value (PInt 0)))) = None)
  ∧ positive_quantities
      (update_list (PInt 101) (PInt 2) (PInt 0) (PStr "remove") self).2.
Proof.
  intros self.
  assert (positive_quantities self) as Hpos.
  { apply positive_store_items.
    - intros c sl Hsl. simpl in Hsl. by rewrite lookup_empty in Hsl.
    - repeat constructor. }
  assert (¬ (eq_str (PStr "remove") "add" = true ∧ int_value (PInt 2) = 0
       ∧ find_item (int_value (PInt 101))
           (ShoppingList.items (customer_list self (int_value (PInt 0)))) = None))
    as Hzero by (by intros [? _]).
  repeat (split; [done|]).
  apply (quantities_stay_positive _ _ _ _ self Hpos Hzero).
Defined.

(** X8. What [update_list] returns is what a read returns next: whatever
    the arguments and the client, when [update_list] returns a list,
    [get_shopping_list] for the same customer then returns that list and
    leaves the client as it is. *)
Theorem update_then_read (sku quantity customer_id operation : pyval)
    (self : ShoppingListClient) :
  match update_list sku quantity customer_id operation self with
  | (Ok new_list, self') =>
      get_shopping_list customer_id self' = (Ok new_list, self')
  | (Raise _, _) => True
  end.
Proof.
  change (wp (update_list sku quantity customer_id operation)
            (λ new_list self',
              get_shopping_list customer_id self' = (Ok new_list, self'))
            (λ _ _, True) self).
  unfold update_list. repeat wp_step; try done; checked.
  all: rewrite get_shopping_list_valid by done.
  all: unfold customer_list at 1.
  all: rewrite ?lookup_store_items, ?lookup_touch; simpl; f_equal.
  all: eapply touch_present; first [apply lookup_store_items | apply lookup_touch].
Qed.

(** X9. The operations agree where they overlap: on a reachable client,
    for a catalog SKU, [add q] with [q > 0] for a SKU the list lacks has
    the outcome of [set q]; removing the whole quantity of an item has the
    outcome of [set 0]; and [add 0] to an item that is there returns the
    list as it was and changes nothing. *)
Theorem operations_agree (s q c : Z) (self : ShoppingListClient) :
  reachable self → is_Some (catalog_get s (catalog self)) → 0 ≤ q → 0 ≤ c →
  let l := ShoppingList.items (customer_list self c) in
  let call q op := update_list (PInt s) (PInt q) (PInt c) (PStr op) self in
  match find_item s l with
  | None => 0 < q → call q "add" = call q "set"
  | Some x =>
      call (LineItem.quantity x) "remove" = call 0 "set"
      ∧ call 0 "add" = (Ok (customer_list self c), self)
  end.
Proof.
  intros Hinv%reachable_inv Hcat Hq Hc l call. subst call.
  pose proof (catalog_sku_positive s self Hinv Hcat) as Hs.
  destruct (customer_list_inv c self Hinv Hc) as [_ _ _ Hqs _].
  destruct (find_item s l) as [x|] eqn:Hfind.
  - pose proof (find_item_Some _ _ _ Hfind) as [Hin _].
    pose proof (proj1 (Forall_forall _ _) Hqs x Hin) as Hx. simpl in Hx.
    split.
    + erewrite update_list_remove_all by done.
      by erewrite update_list_set_zero_present.
    + erewrite update_list_add_present by done.
      rewrite Z.add_0_r, set_quantity_same by done. unfold l.
      rewrite store_items_same, <-customer_list_destruct. f_equal.
      by eapply touch_holding.
  - intros Hpos. erewrite update_list_add_absent by done.
    by erewrite update_list_set_absent.
Qed.

(** With 2 of SKU 101 in the list: remove 2 against set 0, and add 0. *)
Lemma operations_agree_witness :
  let self := run (UpdateList (PInt 101) (PInt 2) (PInt 0) (PStr "add")) init in
  reachable self ∧ is_Some (catalog_get 101 (catalog self)) ∧ 0 ≤ 5 ∧ 0 ≤ 0
  ∧ update_list (PInt 101) (PInt 2) (PInt 0) (PStr "remove") self
    = update_list (PInt 101) (PInt 0) (PInt 0) (PStr "set") self
  ∧ update_list (PInt 101) (PInt 0) (PInt 0) (PStr "add") self
    = (Ok (customer_list self 0), self).
Proof.
  intros self.
  assert (reachable self) as Hreach by apply reachable_run, reachable_init.
  assert (is_Some (catalog_get 101 (catalog self))) as Hcat
    by (apply seed_catalog_keys; lia).
  assert (0 ≤ 5) as Hq by done. assert (0 ≤ 0) as Hc by done.
  do 4 (split; [done|]).
  exact (operations_agree 101 5 0 self Hreach Hcat Hq Hc).
Defined.

(** * Further properties of the tools *)

Lemma first_item_find sku l :
  isinstance_int sku = true → first_item sku l = find_item (int_value sku) l.
Proof.
  intros Hint. unfold first_item, eq_int. rewrite Hint. simpl.
  induction l as [|y l IH]; simpl; [done|].
  by destruct (LineItem.sku y =? int_value sku).
Qed.

Lemma py_int_int int_of_str v :
  isinstance_int v = true → py_int int_of_str v = Ok (int_value v).
Proof. by destruct v. Qed.

Lemma validate_customer_id_valid int_of_str v :
  isinstance_int v = true → 0 ≤ int_value v →
  validate_customer_id int_of_str v = Ok tt.
Proof.
  intros Hint Hc. unfold validate_customer_id. rewrite py_int_int by done.
  simpl. by apply Z.ltb_ge in Hc as ->.
Qed.

Lemma GetShoppingListTool_forward_valid int_of_str v self :
  isinstance_int v = true → 0 ≤ int_value v →
  GetShoppingListTool_forward int_of_str v self
  = (Ok (extract_list (customer_list self (int_value v))),
     touch (int_value v) self).
Proof.
  intros Hint Hc. apply wp_result. unfold GetShoppingListTool_forward.
  rewrite validate_customer_id_valid, py_int_int by done.
  repeat tool_step; try done.
  cbn [isinstance_int int_value andb] in *. checked. lia.
Qed.

(** X10. A successful [UpdateListTool.forward] reports the stored state:
    whatever the arguments and the client, when the tool returns a
    success dictionary, its [list] is the list now stored for the
    customer, its [item] is the line of that list for the SKU ([None]
    when the list has none), and [GetShoppingListTool.forward] for the
    same customer then returns that list's [list_id] and [items] and
    changes nothing. *)
Theorem tool_update_then_read (int_of_str : string → option Z)
    (sku quantity customer_id operation : pyval) (self : ShoppingListClient) :
  match UpdateListTool_forward sku quantity customer_id operation self with
  | (Ok (UpdateOutput status msg sl item), self') =>
      status = "success"
      ∧ shopping_lists self' !! int_value customer_id = Some sl
      ∧ item = find_item (int_value sku) (ShoppingList.items sl)
      ∧ GetShoppingListTool_forward int_of_str customer_id self'
        = (Ok (ListOutput (ShoppingList.list_id sl) (ShoppingList.items sl)), self')
  | _ => True
  end.
Proof.
  change (wp (UpdateListTool_forward sku quantity customer_id operation)
    (λ out self',
      match out with
      | UpdateOutput status msg sl item =>
          status = "success"
          ∧ shopping_lists self' !! int_value customer_id = Some sl
          ∧ item = find_item (int_value sku) (ShoppingList.items sl)
          ∧ GetShoppingListTool_forward int_of_str customer_id self'
            = (Ok (ListOutput (ShoppingList.list_id sl) (ShoppingList.items sl)),
               self')
      | _ => True
      end)
    (λ _ _, True) self).
  assert (∀ self' sl,
    isinstance_int customer_id = true → 0 ≤ int_value customer_id →
    shopping_lists self' !! int_value customer_id = Some sl →
    GetShoppingListTool_forward int_of_str customer_id self'
    = (Ok (ListOutput (ShoppingList.list_id sl) (ShoppingList.items sl)), self'))
    as Hread.
  { intros self' sl Hint Hc Hsl.
    rewrite GetShoppingListTool_forward_valid by done.
    rewrite (touch_present _ _ _ Hsl). unfold customer_list. by rewrite Hsl. }
  unfold UpdateListTool_forward, UpdateListTool_checks, update_list,
    validate_quantity, validate_operation, validate_sku.
  repeat tool_step; try done; checked.
  all: split; [done|].
  all: split; [first [apply lookup_store_items | apply lookup_touch]|].
  all: match goal with
       | H : negb (isinstance_int _) || (_ <=? _) = false |- _ =>
           apply orb_false_elim in H as [Hsku%negb_false_iff _]
       end.
  all: split; [by apply first_item_find|].
  all: apply Hread; try done.
  all: first [apply lookup_store_items | apply lookup_touch].
Qed.

(** X11. [UpdateListTool.forward] is atomic as well: whatever the
    arguments and the client, it never raises, and when it returns an
    error dictionary every customer's list reads as before and the
    catalog is untouched. *)
Theorem tool_update_atomic (sku quantity customer_id operation : pyval)
    (self : ShoppingListClient) :
  match UpdateListTool_forward sku quantity customer_id operation self with
  | (Ok (ErrorOutput _ _), self') =>
      (∀ c, customer_list self' c = customer_list self c)
      ∧ catalog self' = catalog self
  | (Ok _, _) => True
  | (Raise _, _) => False
  end.
Proof.
  change (wp (UpdateListTool_forward sku quantity customer_id operation)
    (λ out self',
      match out with
      | ErrorOutput _ _ =>
          (∀ c, customer_list self' c = customer_list self c)
          ∧ catalog self' = catalog self
      | _ => True
      end)
    (λ _ _, False) self).
  unfold UpdateListTool_forward, UpdateListTool_checks, update_list,
    validate_quantity, validate_operation, validate_sku.
  repeat tool_step; try done.
  all: split; [intros c|done]; by rewrite ?customer_list_touch.
Qed.

(** X12. Removal through the tool of a SKU the customer's list lacks is
    always reported as not found in the list: for a non-negative integer
    quantity and customer, and for any SKU argument the list has no item
    equal to (be it a catalog SKU, an integer outside the catalog, a
    non-positive integer, a string or [None]), [UpdateListTool.forward]
    with operation [remove] returns the [ITEM_NOT_FOUND] result of the
    tool's own check, the SKU never being validated. *)
Theorem tool_remove_absent (sku : pyval) (q c : Z) (self : ShoppingListClient) :
  0 ≤ q → 0 ≤ c →
  item_exists sku (ShoppingList.items (customer_list self c)) = false →
  UpdateListTool_forward sku (PInt q) (PInt c) (PStr "remove") self
  = (Ok (ErrorOutput ("Item with SKU " +:+ py_str sku +:+ " not found in list")
           (Some (PStr "ITEM_NOT_FOUND"))),
     touch c self).
Proof.
  intros Hq Hc Habsent. apply wp_result.
  unfold UpdateListTool_forward, UpdateListTool_checks,
    validate_quantity, validate_operation.
  repeat (tool_step; cbn [int_value isinstance_int negb] in *; checked;
          try done; try lia).
  all: by rewrite Habsent in *.
Qed.

(** Removing the SKU given as the text [apple] on a fresh client. *)
Lemma tool_remove_absent_witness :
  0 ≤ 1 ∧ 0 ≤ 0
  ∧ item_exists (PStr "apple") (ShoppingList.items (customer_list init 0)) = false
  ∧ UpdateListTool_forward (PStr "apple") (PInt 1) (PInt 0) (PStr "remove") init
    = (Ok (ErrorOutput "Item with SKU apple not found in list"
             (Some (PStr "ITEM_NOT_FOUND"))),
       touch 0 init).
Proof.
  assert (0 ≤ 1) as Hq by done. assert (0 ≤ 0) as Hc by done.
  assert (item_exists (PStr "apple")
            (ShoppingList.items (customer_list init 0)) = false) as Habs by done.
  do 3 (split; [done|]).
  exact (tool_remove_absent (PStr "apple") 1 0 init Hq Hc Habs).
Defined.

(** X13. [GetItemDetailsTool.forward] rejects every SKU given as text,
    the type its schema declares: for a non-empty string, whatever the
    item name and the client, it returns the error of the SKU validator,
    with [None] as error code, and changes nothing. *)
Theorem tool_item_text_sku (int_of_str : string → option Z)
    (str_lower str_strip : string → string)
    (text : string) (item_name : pyval) (self : ShoppingListClient) :
  text ≠ "" →
  GetItemDetailsTool_forward int_of_str str_lower str_strip (PStr text) item_name self
  = (Ok (ErrorOutput "SKU must be a positive integer" (Some PNone)), self).
Proof.
  intros Htext. apply wp_result.
  unfold GetItemDetailsTool_forward, validate_sku.
  assert (truthy (PStr text) = true) as ->.
  { simpl. apply negb_true_iff. by apply String.eqb_neq. }
  simpl. repeat (tool_step; simpl); done.
Qed.

(** The SKU of the apple given as the text [101]. *)
Lemma tool_item_text_sku_witness :
  "101" ≠ ""
  ∧ GetItemDetailsTool_forward (λ _, None) (λ t, t) (λ t, t)
      (PStr "101") PNone init
    = (Ok (ErrorOutput "SKU must be a positive integer" (Some PNone)), init).
Proof.
  assert ("101" ≠ "") as Htext by done.
  split; [done|].
  exact (tool_item_text_sku (λ _, None) (λ t, t) (λ t, t) "101" PNone init Htext).
Defined.

(** X14. Lookup by name: with no SKU (a falsy one) and a name that is a
    string, non-empty also once stripped, [GetItemDetailsTool.forward]
    returns the first catalog entry whose lowered name is the lowered
    query, with its price as stored (not reformatted), or an error with
    [None] as code when no entry matches; the client is unchanged. *)
Theorem tool_item_by_name (int_of_str : string → option Z)
    (str_lower str_strip : string → string)
    (sku : pyval) (name : string) (self : ShoppingListClient) :
  truthy sku = false → name ≠ "" → str_strip name ≠ "" →
  let matches (p : Z * catalog_item) :=
    str_lower (CatalogItem.item_name p.2) = str_lower name in
  (∃ before k item after,
     catalog self = before ++ (k, item) :: after
     ∧ Forall (λ p, ¬ matches p) before ∧ matches (k, item)
     ∧ GetItemDetailsTool_forward int_of_str str_lower str_strip sku (PStr name) self
       = (Ok (ItemOutput (CatalogItem.sku item) (CatalogItem.item_name item)
                (CatalogItem.unit_price item)), self))
  ∨ (Forall (λ p, ¬ matches p) (catalog self)
     ∧ GetItemDetailsTool_forward int_of_str str_lower str_strip sku (PStr name) self
       = (Ok (ErrorOutput ("Item '" +:+ name +:+ "' not found") (Some PNone)),
          self)).
Proof.
  intros Hsku Hname Hstrip matches.
  assert (∀ entries : list (Z * catalog_item),
    (∃ before k item after,
       entries = before ++ (k, item) :: after
       ∧ Forall (λ p, ¬ matches p) before ∧ matches (k, item)
       ∧ find_by_name str_lower name entries = Some item)
    ∨ (Forall (λ p, ¬ matches p) entries
       ∧ find_by_name str_lower name entries = None))
    as Hfind.
  { unfold find_by_name, matches.
    induction entries as [|[k item] entries IH]; simpl.
    - right. by split.
    - destruct (String.eqb_spec (str_lower (CatalogItem.item_name item))
                  (str_lower name)) as [Heq|Hne].
      + left. by exists [], k, item, entries.
      + destruct IH as [(before & k' & item' & after & -> & Hb & Hm & Hf)|[Hall Hf]].
        * left. exists ((k, item) :: before), k', item', after.
          repeat split; try done. by constructor.
        * right. split; [by constructor | done]. }
  assert (∀ r,
    (match find_by_name str_lower name (catalog self) with
     | Some item =>
         (Ok (ItemOutput (CatalogItem.sku item) (CatalogItem.item_name item)
                (CatalogItem.unit_price item)), self)
     | None =>
         (Ok (ErrorOutput ("Item '" +:+ name +:+ "' not found") (Some PNone)), self)
     end) = r →
    GetItemDetailsTool_forward int_of_str str_lower str_strip sku (PStr name) self
    = r) as Hrun.
  { intros r <-. apply wp_result. unfold GetItemDetailsTool_forward.
    rewrite Hsku. simpl.
    apply String.eqb_neq in Hname as ->. apply String.eqb_neq in Hstrip as ->.
    simpl. repeat (tool_step; simpl); done. }
  destruct (Hfind (catalog self))
    as [(before & k & item & after & Hcat & Hb & Hm & Hf)|[Hall Hf]].
  - left. exists before, k, item, after. repeat split; try done.
    apply Hrun. by rewrite Hf.
  - right. split; [done|]. apply Hrun. by rewrite Hf.
Qed.

(** The milk by name, names compared as they are: the price returned is
    the stored 2.8. *)
Lemma tool_item_by_name_witness :
  truthy PNone = false ∧ "Milk" ≠ "" ∧ "Milk" ≠ ""
  ∧ ((∃ before k item after,
        catalog init = before ++ (k, item) :: after
        ∧ Forall (λ p : Z * catalog_item,
                    ¬ CatalogItem.item_name p.2 = "Milk") before
        ∧ CatalogItem.item_name item = "Milk"
        ∧ GetItemDetailsTool_forward (λ _, None) (λ t, t) (λ t, t)
            PNone (PStr "Milk") init
          = (Ok (ItemOutput (CatalogItem.sku item) (CatalogItem.item_name item)
                   (CatalogItem.unit_price item)), init))
     ∨ (Forall (λ p : Z * catalog_item,
                  ¬ CatalogItem.item_name p.2 = "Milk") (catalog init)
        ∧ GetItemDetailsTool_forward (λ _, None) (λ t, t) (λ t, t)
            PNone (PStr "Milk") init
          = (Ok (ErrorOutput "Item 'Milk' not found" (Some PNone)), init))).
Proof.
  assert (truthy PNone = false) as Hsku by done.
  assert ("Milk" ≠ "") as Hname by done.
  do 3 (split; [done|]).
  exact (tool_item_by_name (λ _, None) (λ t, t) (λ t, t) PNone "Milk" init
           Hsku Hname Hname).
Defined.

(** X15. [GetShoppingListTool.forward] takes the customer id as
    [int(customer_id)] reads it, so also as text: it returns the
    customer's list, recording an empty one on first access, exactly when
    that integer exists and is not negative (0 is accepted, although the
    error for a negative one asks for a positive integer); a negative
    integer and an unreadable text give an error dictionary whose code is
    [None], and [None] as customer id gives the generic error without a
    code.  The tool never raises. *)
Theorem tool_get_shopping_list (int_of_str : string → option Z)
    (customer_id : pyval) (self : ShoppingListClient) :
  GetShoppingListTool_forward int_of_str customer_id self
  = match py_int int_of_str customer_id with
    | Ok z =>
        if z <? 0 then
          (Ok (ErrorOutput "Customer ID must be a positive integer" (Some PNone)),
           self)
        else
          (Ok (ListOutput (ShoppingList.list_id (customer_list self z))
                 (ShoppingList.items (customer_list self z))),
           touch z self)
    | Raise e =>
        match customer_id with
        | PStr _ =>
            (Ok (ErrorOutput "Customer ID must be a valid integer" (Some PNone)),
             self)
        | _ => (Ok (ErrorOutput "An unexpected error occurred" None), self)
        end
    end.
Proof.
  apply wp_result.
  unfold GetShoppingListTool_forward, validate_customer_id.
  destruct customer_id as [|b|z|text]; simpl;
    [|destruct b| |destruct (int_of_str text) as [z|]]; simpl.
  all: try (destruct (z <? 0) eqn:Hz; simpl).
  all: repeat (tool_step; simpl); try done.
  all: cbn [isinstance_int int_value andb] in *; checked; lia.
Qed.

(** ** The tools keep the invariant of the store *)

Section Keeps.

Variable P : ShoppingListClient → Prop.

(** A computation keeps [P] when it leaves [P] true, returning or
    raising. *)
#[local] Abbreviation keeps m self := (wp m (λ _, P) (λ _, P) self).

Lemma keeps_bind {A B} (m : M A) (f : A → M B) self :
  keeps m self → (∀ a self', P self' → keeps (f a) self') →
  keeps (m ≫= f) self.
Proof.
  intros Hm Hf. apply wp_bind. unfold wp in *.
  destruct (m self) as [[a|e] self']; [by apply Hf | done].
Qed.

Lemma keeps_try_except {A} (body : M A) (handler : exception → M A) self :
  keeps body self → (∀ e self', P self' → keeps (handler e) self') →
  keeps (try_except body handler) self.
Proof.
  intros Hm Hf. apply wp_try_except. unfold wp in *.
  destruct (body self) as [[a|e] self']; [done | by apply Hf].
Qed.

Lemma keeps_pure {A} (m : M A) self :
  (∀ self', (m self').2 = self') → P self → keeps m self.
Proof.
  intros Hpure HP. unfold wp. specialize (Hpure self).
  destruct (m self) as [[a|e] self']; simpl in *; by subst.
Qed.

End Keeps.

(** X16. The three tools keep the data model: from a client that
    satisfies the invariant of the store (the seed catalog, list ids
    equal to the customer ids, SKUs unique in a list, non-negative
    quantities of catalog SKUs), each tool leaves a client that satisfies
    it, whatever the arguments and Python's text built-ins. *)
Theorem tools_keep_invariant (int_of_str : string → option Z)
    (str_lower str_strip : string → string) (self : ShoppingListClient) :
  store_inv self →
  (∀ customer_id,
     store_inv (GetShoppingListTool_forward int_of_str customer_id self).2)
  ∧ (∀ sku item_name,
     store_inv (GetItemDetailsTool_forward int_of_str str_lower str_strip
                  sku item_name self).2)
  ∧ (∀ sku quantity customer_id operation,
     store_inv (UpdateListTool_forward sku quantity customer_id operation self).2).
Proof.
  intros Hinv.
  assert (∀ {A} (m : M A), wp m (λ _, store_inv) (λ _, store_inv) self →
            store_inv (m self).2) as Hrun.
  { intros A m Hwp. unfold wp in Hwp. by destruct (m self) as [[a|e] self']. }
  assert (∀ {A} (b : bool) (m1 m2 : M A) self',
            wp m1 (λ _, store_inv) (λ _, store_inv) self' →
            wp m2 (λ _, store_inv) (λ _, store_inv) self' →
            wp (if b then m1 else m2) (λ _, store_inv) (λ _, store_inv) self')
    as Hif by (by intros A []).
  split; [|split].
  - intros customer_id. apply Hrun, keeps_try_except.
    + apply keeps_bind; [by apply keeps_pure|]. intros _ self1 H1.
      apply keeps_bind; [by apply keeps_pure|]. intros z self2 H2.
      apply keeps_bind; [by apply get_shopping_list_inv|]. by intros sl self3 H3.
    + intros e self1 H1. by repeat apply Hif.
  - intros sku item_name. apply Hrun, keeps_try_except.
    + apply keeps_bind; [by apply Hif|]. intros _ self1 H1.
      apply keeps_bind; [|by intros item self2 H2].
      apply Hif.
      * apply keeps_bind; [by apply keeps_pure|]. intros _ self2 H2.
        apply keeps_bind; [by apply keeps_pure|]. intros z self3 H3.
        by apply get_item_info_inv.
      * apply keeps_bind; [by apply Hif|]. intros _ self2 H2.
        apply keeps_bind; [by apply keeps_pure|]. intros self3 self4 H4.
        by destruct (find_by_name _ _ _).
    + intros e self1 H1. by repeat apply Hif.
  - intros sku quantity customer_id operation. apply Hrun, keeps_try_except.
    + apply keeps_bind.
      * unfold UpdateListTool_checks.
        apply keeps_bind; [by apply keeps_pure|]. intros _ self1 H1.
        apply keeps_bind; [by apply keeps_pure|]. intros _ self2 H2.
        apply keeps_bind; [by apply get_shopping_list_inv|].
        intros sl self3 H3. by repeat apply Hif.
      * intros _ self1 H1.
        apply keeps_bind; [by apply update_list_inv|]. by intros sl self2 H2.
    + intros e self1 H1. by repeat apply Hif.
Qed.

(** The fresh client satisfies the invariant; any call of the update
    tool from it keeps it. *)
Lemma tools_keep_invariant_witness :
  store_inv init
  ∧ store_inv
      (UpdateListTool_forward (PInt 101) (PInt 2) (PInt 0) (PStr "add") init).2.
Proof.
  split; [apply init_inv|].
  apply (tools_keep_invariant (λ _, None) (λ t, t) (λ t, t) init init_inv).
Defined.

(** * Further properties of the price text *)

(** A text made of decimal digits. *)
#[local] Abbreviation digits text :=
  (Forall (λ a, is_digit a = true) (String.list_ascii_of_string text)).

Lemma list_ascii_app (s1 s2 : string) :
  String.list_ascii_of_string (s1 +:+ s2)
  = String.list_ascii_of_string s1 ++ String.list_ascii_of_string s2.
Proof. induction s1 as [|a s1 IH]; simpl; [done | by rewrite IH]. Qed.

Lemma pretty_N_char_digit (x : N) : is_digit (pretty_N_char x) = true.
Proof. unfold pretty_N_char. by repeat case_match. Qed.

Lemma pretty_N_go_digits (x : N) (acc : string) :
  digits acc → digits (pretty_N_go x acc).
Proof.
  revert acc. induction (N.lt_wf_0 x) as [x _ IH]. intros acc Hacc.
  destruct (decide (x = 0)%N) as [->|Hx]; [by rewrite pretty_N_go_0|].
  rewrite pretty_N_go_step by lia. apply IH.
  - apply N.div_lt; lia.
  - simpl. constructor; [apply pretty_N_char_digit | done].
Qed.

Lemma pretty_N_go_length (x : N) (acc : string) :
  (String.length acc ≤ String.length (pretty_N_go x acc))%nat.
Proof.
  revert acc. induction (N.lt_wf_0 x) as [x _ IH]. intros acc.
  destruct (decide (x = 0)%N) as [->|Hx]; [by rewrite pretty_N_go_0|].
  rewrite pretty_N_go_step by lia.
  etrans; [|apply IH; apply N.div_lt; lia]. simpl. lia.
Qed.

(** The decimal text of a non-negative integer: one digit or more. *)
Lemma pretty_digits (z : Z) :
  0 ≤ z → ∃ d rest, pretty z = String d rest ∧ digits (String d rest).
Proof.
  intros Hz.
  assert (digits (pretty z) ∧ pretty z ≠ "") as [Hd Hne].
  { destruct z as [|p|p]; [by repeat constructor| |lia].
    unfold pretty, pretty_Z, pretty, pretty_positive, pretty, pretty_N.
    rewrite decide_False by done. split.
    - by apply pretty_N_go_digits.
    - pose proof (pretty_N_go_length (N.pos p / 10)
                    (String (pretty_N_char (N.pos p `mod` 10)) "")) as Hlen.
      rewrite pretty_N_go_step by lia. intros Heq. rewrite Heq in Hlen.
      simpl in Hlen. lia. }
  destruct (pretty z) as [|d rest]; [done|]. by exists d, rest.
Qed.

(** The cents: two digits. *)
Lemma two_digits_shape (n : Z) :
  0 ≤ n < 100 →
  ∃ d1 d2, two_digits n = String d1 (String d2 "")
           ∧ is_digit d1 = true ∧ is_digit d2 = true.
Proof.
  intros Hn.
  set (shape (k : Z) :=
    match two_digits k with
    | String d1 (String d2 EmptyString) => is_digit d1 && is_digit d2
    | _ => false
    end).
  assert (forallb shape (seqZ 0 100) = true) as Hall by (by vm_compute).
  assert (shape n = true) as Hshape.
  { apply (proj1 (forallb_forall _ _) Hall), list_elem_of_In, elem_of_seqZ. lia. }
  unfold shape in Hshape.
  destruct (two_digits n) as [|d1 [|d2 [|]]]; try done.
  apply andb_prop in Hshape as [? ?]. by exists d1, d2.
Qed.

Lemma read_digits_app (s1 s2 : string) (acc count : Z) :
  digits s1 →
  ∃ acc', read_digits (s1 +:+ s2) acc count
          = read_digits s2 acc' (count + Z.of_nat (String.length s1)).
Proof.
  revert acc count. induction s1 as [|a s1 IH]; intros acc count Hd; simpl.
  - exists acc. by rewrite Z.add_0_r.
  - apply Forall_cons in Hd as [Ha Hd]. unfold is_digit in Ha.
    apply bool_decide_eq_true_1 in Ha as [d Ha]. rewrite Ha.
    destruct (IH (10 * acc + d) (count + 1) Hd) as [acc' ->].
    exists acc'. f_equal. lia.
Qed.

Lemma is_digit_value (a : ascii) : is_digit a = true → ∃ k, digit_of a = Some k.
Proof. unfold is_digit. by intros [k Hk]%bool_decide_eq_true_1; exists k. Qed.

(** The text of a finite amount has two decimals. *)
Lemma fixed2_two_decimals (neg : bool) (h : Z) :
  0 ≤ h → two_decimals (fixed2 neg h) = true.
Proof.
  intros Hh. unfold fixed2.
  destruct (pretty_digits (h / 100)) as (d & rest & -> & Hd);
    [apply Z.div_pos; lia|].
  destruct (two_digits_shape (h `mod` 100)) as (d1 & d2 & -> & Hd1 & Hd2);
    [apply Z.mod_pos_bound; lia|].
  pose proof Hd as Hd'. apply Forall_cons in Hd' as [Hdig _].
  assert (∀ chars : list ascii,
            reverse (String.list_ascii_of_string
                       (String d rest +:+ "." +:+ String d1 (String d2 "")))
            = chars →
               match chars with
               | c2 :: c1 :: point :: whole =>
                   is_digit c2 && is_digit c1 && bool_decide (point = "."%char)
                   && negb (bool_decide (whole = [])) && forallb is_digit whole
               | _ => false
               end = true) as Hbody.
  { intros chars <-. rewrite list_ascii_app, reverse_app. simpl.
    rewrite Hd1, Hd2. simpl.
    rewrite bool_decide_eq_false_2.
    - simpl. apply forallb_forall. intros a Ha%list_elem_of_In.
      rewrite elem_of_reverse in Ha.
      by apply (proj1 (Forall_forall _ _) Hd).
    - intros Hnil. apply (f_equal length) in Hnil.
      rewrite length_reverse in Hnil. done. }
  unfold two_decimals.
  destruct neg; destruct d as [[] [] [] [] [] [] [] []]; try done.
  all: by apply Hbody.
Qed.

(** The text of a finite amount reads back as a float. *)
Lemma fixed2_reads_back (neg : bool) (h : Z) :
  0 ≤ h → ∃ p, py_float (fixed2 neg h) = Ok p.
Proof.
  intros Hh. unfold fixed2.
  destruct (pretty_digits (h / 100)) as (d & rest & -> & Hd);
    [apply Z.div_pos; lia|].
  destruct (two_digits_shape (h `mod` 100)) as (d1 & d2 & -> & Hd1 & Hd2);
    [apply Z.mod_pos_bound; lia|].
  apply Forall_cons in Hd as [Hdig Hrest].
  destruct (is_digit_value _ Hd1) as [k1 Hk1].
  destruct (is_digit_value _ Hd2) as [k2 Hk2].
  pose proof (λ acc count,
    read_digits_app rest ("." +:+ String d1 (String d2 "")) acc count Hrest)
    as Happ.
  destruct neg; destruct d as [[] [] [] [] [] [] [] []]; try done.
  all: unfold py_float; simpl.
  all: match goal with
       | |- context [read_digits (_ +:+ _) ?acc ?count] =>
           destruct (Happ acc count) as [ip ->]
       end.
  all: simpl; rewrite Hk1, Hk2; simpl.
  all: rewrite andb_false_r; by eexists.
Qed.

(** X17. The price text always reads back: for every double,
    [format_currency] yields a text that [float] accepts, and for a
    finite one a text with exactly two decimals. *)
Theorem format_currency_reads_back (value : float) :
  (∃ p, py_float (format_currency value) = Ok p)
  ∧ match Prim2SF value with
    | S754_zero _ | S754_finite _ _ _ =>
        two_decimals (format_currency value) = true
    | _ => True
    end.
Proof.
  assert (∀ m e, 0 ≤ hundredths m e) as Hnonneg.
  { intros m e. unfold hundredths, round_half_even.
    destruct (Z.leb_spec 0 e) as [He|He]; [lia|].
    assert (0 < 2 ^ (- e)) as Hpow by (apply Z.pow_pos_nonneg; lia).
    pose proof (Z.div_pos (Z.pos m * 100) (2 ^ (- e)) ltac:(lia) Hpow).
    repeat case_match; lia. }
  unfold format_currency. destruct (Prim2SF value) as [s|s| |s m e].
  - split; [by apply fixed2_reads_back | by apply fixed2_two_decimals].
  - split; [|done]. destruct s; by eexists.
  - split; [|done]. by eexists.
  - split; [by apply fixed2_reads_back | by apply fixed2_two_decimals].
Qed.


Lemma catalog_get_set_price s s' p (entries : list (Z * catalog_item)) :
  catalog_get s' (catalog_set_price s p entries)
  = if bool_decide (s' = s)
    then (λ item, CatalogItem.mk (CatalogItem.sku item)
                    (CatalogItem.item_name item) p) <$> catalog_get s entries
    else catalog_get s' entries.
Proof.
  induction entries as [|[k item] entries IH]; simpl; [by case_bool_decide|].
  destruct (Z.eqb_spec k s) as [Heq|Hne]; simpl;
    destruct (Z.eqb_spec k s') as [Heq'|Hne'];
    rewrite ?IH; case_bool_decide; simplify_eq/=; done.
Qed.

(** X19. [get_item_info] on any client, whatever its catalog holds: it
    raises only the [InvalidSkuError] of the validator or the
    [ItemNotFoundError] of the lookup, each leaving the client unchanged
    (reading the price text back never fails); when it returns, the
    argument is a positive integer found in the catalog, the item
    returned is that entry with its price read back from its two-decimal
    text, the catalog now holds the item returned under that SKU and
    every other entry as before, and the lists are untouched. *)
Theorem get_item_info_any_client (sku : pyval) (self : ShoppingListClient) :
  match get_item_info sku self with
  | (Ok item, self') =>
      isinstance_int sku = true ∧ 0 < int_value sku
      ∧ (∃ stored,
           catalog_get (int_value sku) (catalog self) = Some stored
           ∧ CatalogItem.sku item = CatalogItem.sku stored
           ∧ CatalogItem.item_name item = CatalogItem.item_name stored
           ∧ py_float (format_currency (CatalogItem.unit_price stored))
             = Ok (CatalogItem.unit_price item))
      ∧ catalog_get (int_value sku) (catalog self') = Some item
      ∧ (∀ s', s' ≠ int_value sku →
               catalog_get s' (catalog self') = catalog_get s' (catalog self))
      ∧ shopping_lists self' = shopping_lists self
  | (Raise e, self') =>
      self' = self
      ∧ (e = Exc InvalidSkuError "SKU must be a positive integer" None
         ∨ e = Exc ItemNotFoundError
                 ("Item with SKU " +:+ py_str sku +:+ " not found") None)
  end.
Proof.
  unfold get_item_info, validate_sku, mbind, M_bind, liftR, get_self.
  destruct (isinstance_int sku) eqn:Hint; simpl; [|by split; [|left]].
  destruct (Z.leb_spec (int_value sku) 0) as [Hs|Hs]; simpl; [by split; [|left]|].
  destruct (catalog_get (int_value sku) (catalog self)) as [stored|] eqn:Hget;
    simpl; [|by split; [|right]].
  destruct (format_currency_reads_back (CatalogItem.unit_price stored))
    as [[p Hp] _].
  rewrite Hp. simpl.
  split; [done|]. split; [done|]. split; [by exists stored|].
  rewrite !catalog_get_set_price, Hget, bool_decide_eq_true_2 by done.
  split; [done|]. split; [|done].
  intros s' Hne. by rewrite catalog_get_set_price, bool_decide_eq_false_2.
Qed.
